(** * ciao-controller datastore: the in-memory cache, shallowly embedded

    Source: [ciao-controller/internal/datastore/datastore.go].

    Go's [int] is modelled as [Z] with the two's-complement wrap-around of a
    64-bit word written out where the code does arithmetic on stored values;
    Go maps are stdpp [gmap]s (a missing inner map is Go's nil map: reading
    it yields the zero value, writing to it panics); slices are lists.
    A [*tenant] or [*node] held in a map is modelled by its pointee, so the
    Go lookup [ds.tenants[id]] is nil exactly when the [gmap] lookup is
    [None].  The locks only serialise callers and are not modelled: every
    operation below is the sequential behaviour of one call. *)

From Stdlib Require Import ZArith Lia Ascii.
From stdpp Require Import gmap strings list fin_maps sorting.

Local Open Scope Z_scope.

(** ** Machine integers *)

Module GoInt.

Definition min_int : Z := - 2 ^ 63.
Definition max_int : Z := 2 ^ 63 - 1.

(** The value an [int] variable holds after the mathematical result [x]
    has been stored in it. *)
Definition wrap (x : Z) : Z := (x + 2 ^ 63) mod 2 ^ 64 - 2 ^ 63.

Definition valid (x : Z) : Prop := min_int <= x <= max_int.

Definition add (x y : Z) : Z := wrap (x + y).
Definition sub (x y : Z) : Z := wrap (x - y).

(** Conversions [uint16(k)] and [byte(k)] of an [int]. *)
Definition uint16 (k : Z) : Z := k mod 65536.
Definition byte (k : Z) : Z := k mod 256.

End GoInt.

(** ** Data model *)

(** [time.Time] instants and [time.Duration]s, in nanoseconds. *)
Definition Time := Z.

(** [types.Resource], [types.Tenant], [types.Instance], [types.BlockData],
    [types.StorageAttachment] and the [payloads] records are declared in
    packages outside this file; the records below carry the fields the
    datastore reads or writes. *)
Record types_Resource := {
  Rname : string;
  Rtype : Z;
  Limit : Z;
  Usage : Z
}.

Record types_Tenant := {
  Tenant_ID : string;
  CNCIID : string;
  CNCIMAC : string;
  CNCIIP : string;
  Resources : list types_Resource
}.

Record types_Instance := {
  Instance_ID : string;
  Instance_TenantID : string;
  Instance_NodeID : string;
  Instance_State : string;
  Instance_IPAddress : string;
  Instance_Usage : gmap string Z;
  Instance_SSHIP : string;
  Instance_SSHPort : Z
}.

Inductive types_BlockState := Available | Attaching | InUse | Detaching.

Record types_BlockData := {
  BlockData_ID : string;
  BlockData_TenantID : string;
  BlockData_Size : Z;
  BlockData_State : types_BlockState;
  BlockData_CreateTime : Time
}.

Record types_StorageAttachment := {
  Attachment_ID : string;
  Attachment_InstanceID : string;
  Attachment_BlockID : string
}.

Record payloads_CiaoUsage := {
  VCPU : Z;
  Memory : Z;
  Disk : Z;
  Timestamp : Time
}.

Record payloads_CiaoServerStats := {
  Stats_ID : string;
  Stats_NodeID : string;
  Stats_Timestamp : Time;
  Stats_Status : string;
  Stats_TenantID : string;
  Stats_VCPUUsage : Z;
  Stats_MemUsage : Z;
  Stats_DiskUsage : Z
}.

(** [type tenant struct]: the embedded [types.Tenant] and the cache's own
    tables.  The maps of a tenant are made by the persistent store's loader
    and are never nil; an inner host table of [network] may be missing. *)
Record tenant := {
  Tenant : types_Tenant;
  network : gmap Z (gmap Z bool);
  subnets : list Z;
  tenant_instances : gmap string types_Instance;
  devices : gmap string types_BlockData
}.

(** [type node struct]. *)
Record node := {
  Node_ID : string;
  Node_Hostname : string;
  node_instances : gmap string types_Instance
}.

(** [type attachment struct], the key of [instanceVolumes]. *)
Definition attachment : Type := string * string.

Inductive payloads_StartFailureReason :=
| FullCloud | FullComputeNode | NoComputeNodes | NoNetworkNodes
| InvalidPayload | InvalidData | ImageFailure | NetworkFailure
| LaunchFailure | AlreadyRunning | InstanceExists
| OtherReason (s : string).

(** Go [error] values the datastore produces or passes on. *)
Inductive error :=
| ErrNoTenant
| ErrNoBlockData
| ErrNoStorageAttachment
| errors_New (msg : string)
| db_error (code : nat).

(** Run-time panics of the Go code. *)
Inductive panic :=
| NilPointerDereference
| NilMapAssignment
| SliceBoundsOutOfRange.

(** Calls made on the [persistentStore] interface. *)
Inductive dbCall :=
| logEvent (tenantID eventType message : string)
| updateTenant (t : types_Tenant)
| releaseTenantIP (tenantID : string) (subnetInt rest : Z)
| claimTenantIP (tenantID : string) (subnetInt rest : Z)
| addInstance (i : types_Instance)
| removeInstance (instanceID : string)
| createBlockData (d : types_BlockData)
| updateBlockData (d : types_BlockData)
| createStorageAttachment (a : types_StorageAttachment).

(** What a call of the datastore does to the outside, in program order:
    a synchronous store call, a store call started with [go], or a send on
    a CNCI channel. *)
Inductive effect :=
| Call (c : dbCall)
| Go (c : dbCall)
| Send (ch : nat) (b : bool).

(** [type Datastore struct].  [effects] is the history of what the
    datastore did to its collaborators; [clock] and [uuids] count the
    readings taken from the wall clock and from the identifier generator. *)
Record Datastore := {
  cnciAddedChans : gmap string (option nat);
  instanceLastStat : gmap string payloads_CiaoServerStats;
  tenants : gmap string tenant;
  allSubnets : gmap Z bool;
  nodes : gmap string node;
  instances : gmap string types_Instance;
  tenantUsage : gmap string (list payloads_CiaoUsage);
  blockDevices : gmap string types_BlockData;
  attachments : gmap string types_StorageAttachment;
  instanceVolumes : gmap attachment string;
  effects : list effect;
  clock : nat;
  uuids : nat
}.

(** Field updates of the records that are mutated in place. *)
Definition set_Resources (rs : list types_Resource) (t : types_Tenant) : types_Tenant :=
  {| Tenant_ID := Tenant_ID t; CNCIID := CNCIID t; CNCIMAC := CNCIMAC t;
     CNCIIP := CNCIIP t; Resources := rs |}.

Definition set_CNCI (id ip : string) (t : types_Tenant) : types_Tenant :=
  {| Tenant_ID := Tenant_ID t; CNCIID := id; CNCIMAC := CNCIMAC t;
     CNCIIP := ip; Resources := Resources t |}.

Definition set_Usage (u : Z) (r : types_Resource) : types_Resource :=
  {| Rname := Rname r; Rtype := Rtype r; Limit := Limit r; Usage := u |}.

Definition set_BlockData_State (s : types_BlockState) (d : types_BlockData) : types_BlockData :=
  {| BlockData_ID := BlockData_ID d; BlockData_TenantID := BlockData_TenantID d;
     BlockData_Size := BlockData_Size d; BlockData_State := s;
     BlockData_CreateTime := BlockData_CreateTime d |}.

Definition set_Tenant (x : types_Tenant) (t : tenant) : tenant :=
  {| Tenant := x; network := network t; subnets := subnets t;
     tenant_instances := tenant_instances t; devices := devices t |}.

Definition set_network (x : gmap Z (gmap Z bool)) (t : tenant) : tenant :=
  {| Tenant := Tenant t; network := x; subnets := subnets t;
     tenant_instances := tenant_instances t; devices := devices t |}.

Definition set_subnets (x : list Z) (t : tenant) : tenant :=
  {| Tenant := Tenant t; network := network t; subnets := x;
     tenant_instances := tenant_instances t; devices := devices t |}.

Definition set_tenant_instances (x : gmap string types_Instance) (t : tenant) : tenant :=
  {| Tenant := Tenant t; network := network t; subnets := subnets t;
     tenant_instances := x; devices := devices t |}.

Definition set_devices (x : gmap string types_BlockData) (t : tenant) : tenant :=
  {| Tenant := Tenant t; network := network t; subnets := subnets t;
     tenant_instances := tenant_instances t; devices := x |}.

Definition set_node_instances (x : gmap string types_Instance) (n : node) : node :=
  {| Node_ID := Node_ID n; Node_Hostname := Node_Hostname n; node_instances := x |}.

Definition set_cnciAddedChans (x : gmap string (option nat)) (ds : Datastore) : Datastore :=
  {| cnciAddedChans := x; instanceLastStat := instanceLastStat ds;
     tenants := tenants ds; allSubnets := allSubnets ds; nodes := nodes ds;
     instances := instances ds; tenantUsage := tenantUsage ds;
     blockDevices := blockDevices ds; attachments := attachments ds;
     instanceVolumes := instanceVolumes ds; effects := effects ds;
     clock := clock ds; uuids := uuids ds |}.

Definition set_instanceLastStat (x : gmap string payloads_CiaoServerStats) (ds : Datastore) : Datastore :=
  {| cnciAddedChans := cnciAddedChans ds; instanceLastStat := x;
     tenants := tenants ds; allSubnets := allSubnets ds; nodes := nodes ds;
     instances := instances ds; tenantUsage := tenantUsage ds;
     blockDevices := blockDevices ds; attachments := attachments ds;
     instanceVolumes := instanceVolumes ds; effects := effects ds;
     clock := clock ds; uuids := uuids ds |}.

Definition set_tenants (x : gmap string tenant) (ds : Datastore) : Datastore :=
  {| cnciAddedChans := cnciAddedChans ds; instanceLastStat := instanceLastStat ds;
     tenants := x; allSubnets := allSubnets ds; nodes := nodes ds;
     instances := instances ds; tenantUsage := tenantUsage ds;
     blockDevices := blockDevices ds; attachments := attachments ds;
     instanceVolumes := instanceVolumes ds; effects := effects ds;
     clock := clock ds; uuids := uuids ds |}.

Definition set_allSubnets (x : gmap Z bool) (ds : Datastore) : Datastore :=
  {| cnciAddedChans := cnciAddedChans ds; instanceLastStat := instanceLastStat ds;
     tenants := tenants ds; allSubnets := x; nodes := nodes ds;
     instances := instances ds; tenantUsage := tenantUsage ds;
     blockDevices := blockDevices ds; attachments := attachments ds;
     instanceVolumes := instanceVolumes ds; effects := effects ds;
     clock := clock ds; uuids := uuids ds |}.

Definition set_nodes (x : gmap string node) (ds : Datastore) : Datastore :=
  {| cnciAddedChans := cnciAddedChans ds; instanceLastStat := instanceLastStat ds;
     tenants := tenants ds; allSubnets := allSubnets ds; nodes := x;
     instances := instances ds; tenantUsage := tenantUsage ds;
     blockDevices := blockDevices ds; attachments := attachments ds;
     instanceVolumes := instanceVolumes ds; effects := effects ds;
     clock := clock ds; uuids := uuids ds |}.

Definition set_instances (x : gmap string types_Instance) (ds : Datastore) : Datastore :=
  {| cnciAddedChans := cnciAddedChans ds; instanceLastStat := instanceLastStat ds;
     tenants := tenants ds; allSubnets := allSubnets ds; nodes := nodes ds;
     instances := x; tenantUsage := tenantUsage ds;
     blockDevices := blockDevices ds; attachments := attachments ds;
     instanceVolumes := instanceVolumes ds; effects := effects ds;
     clock := clock ds; uuids := uuids ds |}.

Definition set_tenantUsage (x : gmap string (list payloads_CiaoUsage)) (ds : Datastore) : Datastore :=
  {| cnciAddedChans := cnciAddedChans ds; instanceLastStat := instanceLastStat ds;
     tenants := tenants ds; allSubnets := allSubnets ds; nodes := nodes ds;
     instances := instances ds; tenantUsage := x;
     blockDevices := blockDevices ds; attachments := attachments ds;
     instanceVolumes := instanceVolumes ds; effects := effects ds;
     clock := clock ds; uuids := uuids ds |}.

Definition set_blockDevices (x : gmap string types_BlockData) (ds : Datastore) : Datastore :=
  {| cnciAddedChans := cnciAddedChans ds; instanceLastStat := instanceLastStat ds;
     tenants := tenants ds; allSubnets := allSubnets ds; nodes := nodes ds;
     instances := instances ds; tenantUsage := tenantUsage ds;
     blockDevices := x; attachments := attachments ds;
     instanceVolumes := instanceVolumes ds; effects := effects ds;
     clock := clock ds; uuids := uuids ds |}.

Definition set_attachments (x : gmap string types_StorageAttachment) (ds : Datastore) : Datastore :=
  {| cnciAddedChans := cnciAddedChans ds; instanceLastStat := instanceLastStat ds;
     tenants := tenants ds; allSubnets := allSubnets ds; nodes := nodes ds;
     instances := instances ds; tenantUsage := tenantUsage ds;
     blockDevices := blockDevices ds; attachments := x;
     instanceVolumes := instanceVolumes ds; effects := effects ds;
     clock := clock ds; uuids := uuids ds |}.

Definition set_instanceVolumes (x : gmap attachment string) (ds : Datastore) : Datastore :=
  {| cnciAddedChans := cnciAddedChans ds; instanceLastStat := instanceLastStat ds;
     tenants := tenants ds; allSubnets := allSubnets ds; nodes := nodes ds;
     instances := instances ds; tenantUsage := tenantUsage ds;
     blockDevices := blockDevices ds; attachments := attachments ds;
     instanceVolumes := x; effects := effects ds;
     clock := clock ds; uuids := uuids ds |}.

Definition set_effects (x : list effect) (ds : Datastore) : Datastore :=
  {| cnciAddedChans := cnciAddedChans ds; instanceLastStat := instanceLastStat ds;
     tenants := tenants ds; allSubnets := allSubnets ds; nodes := nodes ds;
     instances := instances ds; tenantUsage := tenantUsage ds;
     blockDevices := blockDevices ds; attachments := attachments ds;
     instanceVolumes := instanceVolumes ds; effects := x;
     clock := clock ds; uuids := uuids ds |}.

Definition set_clock (x : nat) (ds : Datastore) : Datastore :=
  {| cnciAddedChans := cnciAddedChans ds; instanceLastStat := instanceLastStat ds;
     tenants := tenants ds; allSubnets := allSubnets ds; nodes := nodes ds;
     instances := instances ds; tenantUsage := tenantUsage ds;
     blockDevices := blockDevices ds; attachments := attachments ds;
     instanceVolumes := instanceVolumes ds; effects := effects ds;
     clock := x; uuids := uuids ds |}.

Definition set_uuids (x : nat) (ds : Datastore) : Datastore :=
  {| cnciAddedChans := cnciAddedChans ds; instanceLastStat := instanceLastStat ds;
     tenants := tenants ds; allSubnets := allSubnets ds; nodes := nodes ds;
     instances := instances ds; tenantUsage := tenantUsage ds;
     blockDevices := blockDevices ds; attachments := attachments ds;
     instanceVolumes := instanceVolumes ds; effects := effects ds;
     clock := clock ds; uuids := x |}.

(** The datastore as [Init] leaves it when the persistent store is empty. *)
Definition emptyDatastore : Datastore :=
  {| cnciAddedChans := ∅; instanceLastStat := ∅; tenants := ∅; allSubnets := ∅;
     nodes := ∅; instances := ∅; tenantUsage := ∅; blockDevices := ∅;
     attachments := ∅; instanceVolumes := ∅; effects := []; clock := 0%nat;
     uuids := 0%nat |}.

(** ** Collaborators

    What the datastore obtains from outside the package: Go's [net.ParseIP]
    and [To4], the wall clock, the identifier generator, the persistent
    store (whose answer to a call may depend on everything done so far) and
    the [String] method of a start-failure reason. *)

Inductive net_IP :=
| IPv4 (a b c d : Z)
| IPv6only (addr : N).

Definition To4 (ip : net_IP) : option (Z * Z * Z * Z) :=
  match ip with
  | IPv4 a b c d => Some (a, b, c, d)
  | IPv6only _ => None
  end.

Record World := {
  net_ParseIP : string → option net_IP;
  time_Now : nat → Time;
  uuid_Generate : nat → string;
  db : list effect → dbCall → option error;
  reason_String : payloads_StartFailureReason → string
}.

(** ** Outcomes and the monad of datastore operations *)

Inductive outcome (A : Type) :=
| Returns (a : A) (ds : Datastore)
| Panics (p : panic) (ds : Datastore)
| Diverges (ds : Datastore).
Arguments Returns {A} a ds.
Arguments Panics {A} p ds.
Arguments Diverges {A} ds.

Definition final {A} (o : outcome A) : Datastore :=
  match o with
  | Returns _ ds | Panics _ ds | Diverges ds => ds
  end.

Definition M (A : Type) : Type := Datastore → outcome A.

#[global] Instance M_ret : MRet M := λ A a ds, Returns a ds.

#[global] Instance M_bind : MBind M := λ A B f m ds,
  match m ds with
  | Returns a ds' => f a ds'
  | Panics p ds' => Panics p ds'
  | Diverges ds' => Diverges ds'
  end.

Definition get : M Datastore := λ ds, Returns ds ds.
Definition modify (f : Datastore → Datastore) : M unit := λ ds, Returns tt (f ds).
Definition throw {A} (p : panic) : M A := λ ds, Panics p ds.
Definition diverge {A} : M A := λ ds, Diverges ds.

(** Go functions returning [(value, error)] with exactly one of the two set. *)
Inductive result (A : Type) :=
| Ok (a : A)
| Err (e : error).
Arguments Ok {A} a.
Arguments Err {A} e.

(** [encoding/binary]'s big-endian conversions on a two-byte slice. *)
Definition binary_BigEndian_Uint16 (b0 b1 : Z) : Z := b0 * 256 + b1.
Definition binary_BigEndian_PutUint16 (v : Z) : Z * Z := ((v / 256) mod 256, v mod 256).

(** [sort.Ints]: the ascending rearrangement of the slice. *)
Fixpoint insert_Int (x : Z) (l : list Z) : list Z :=
  match l with
  | [] => [x]
  | y :: l' => if x <=? y then x :: l else y :: insert_Int x l'
  end.

Definition sort_Ints (l : list Z) : list Z := foldr insert_Int [] l.

(** Reading a Go map of booleans or a table of host maps; [len] of a
    possibly nil map. *)
Definition claimed (m : gmap Z bool) (k : Z) : bool := default false (m !! k).

Definition hosts_claimed (hosts : option (gmap Z bool)) (k : Z) : bool :=
  match hosts with
  | Some h => claimed h k
  | None => false
  end.

Definition len (hosts : option (gmap Z bool)) : Z :=
  match hosts with
  | Some h => Z.of_nat (size h)
  | None => 0
  end.

Section Datastore.

Context (W : World).

Definition db_call (c : dbCall) : M (option error) := λ ds,
  Returns (db W (effects ds) c) (set_effects (effects ds ++ [Call c]) ds).

Definition go_db (c : dbCall) : M unit := λ ds,
  Returns tt (set_effects (effects ds ++ [Go c]) ds).

Definition send (ch : nat) (b : bool) : M unit := λ ds,
  Returns tt (set_effects (effects ds ++ [Send ch b]) ds).

Definition now : M Time := λ ds,
  Returns (time_Now W (clock ds)) (set_clock (S (clock ds)) ds).

Definition uuid_Generate_String : M string := λ ds,
  Returns (uuid_Generate W (uuids ds)) (set_uuids (S (uuids ds)) ds).

(** *** The IP allocator *)

(** [ReleaseTenantIP], lines 592-615. *)
Definition ReleaseTenantIP (tenantID ip : string) : M (option error) :=
  match net_ParseIP W ip with
  | None => mret (Some (errors_New "Invalid IPv4 Address"))
  | Some ipAddr =>
    match To4 ipAddr with
    | None => mret (Some (errors_New "Unable to convert ip to bytes"))
    | Some (_, b1, b2, b3) =>
      let subnetInt := binary_BigEndian_Uint16 b1 b2 in
      ds ← get;
      _ ← match tenants ds !! tenantID with
          | Some t =>
            match network t !! subnetInt with
            | Some hosts =>
              modify (set_tenants
                (<[tenantID := set_network (<[subnetInt := <[b3 := false]> hosts]> (network t)) t]>
                   (tenants ds)))
            | None => throw NilMapAssignment
            end
          | None => mret tt
          end;
      db_call (releaseTenantIP tenantID subnetInt b3)
    end
  end.

(** The loop of lines 632-636: the last subnet of the sorted slice whose
    host table has fewer than 253 entries, 0 when there is none. *)
Definition scanSubnets (network : gmap Z (gmap Z bool)) (subnets : list Z) : Z :=
  fold_left (λ subnetInt k, if len (network !! k) <? 253 then GoInt.uint16 k else subnetInt)
            subnets 0.

(** The loop of lines 643-672 on [subnetBytes]: [Some (Some (b0, b1))] is
    the first index not claimed in [allSubnets], [Some None] is the
    out-of-subnets exit, [None] is the loop still running when the fuel
    is spent. *)
Fixpoint probeSubnets (fuel : nat) (all : gmap Z bool) (b0 b1 : Z) : option (option (Z * Z)) :=
  match fuel with
  | O => None
  | S fuel' =>
    if negb (claimed all (binary_BigEndian_Uint16 b0 b1)) then Some (Some (b0, b1))
    else if b1 =? 255 then
      if b0 =? 31 then Some None
      else probeSubnets fuel' all (GoInt.byte (b0 + 1)) 0
    else probeSubnets fuel' all b0 (GoInt.byte (b1 + 1))
  end.

(** The loop of lines 685-701: [Some (Some rest)] is the first host number
    from [rest] on that is not claimed, [Some None] the exit at 255. *)
Fixpoint probeHosts (fuel : nat) (hosts : option (gmap Z bool)) (rest : Z) : option (option Z) :=
  match fuel with
  | O => None
  | S fuel' =>
    if negb (hosts_claimed hosts rest) then Some (Some rest)
    else if rest =? 255 then Some None
    else probeHosts fuel' hosts (rest + 1)
  end.

(** Lines 681-710, once the subnet and its two bytes are chosen. *)
Definition claimHost (tenantID : string) (t : tenant) (subnetInt b0 b1 : Z) : M (result net_IP) :=
  let hosts := network t !! subnetInt in
  match probeHosts 254 hosts 2 with
  | None => diverge
  | Some None =>
    _ ← modify (λ ds, set_tenants (<[tenantID := t]> (tenants ds)) ds);
    mret (Err (errors_New "rand out of host numbers"))
  | Some (Some rest) =>
    match hosts with
    | None =>
      _ ← modify (λ ds, set_tenants (<[tenantID := t]> (tenants ds)) ds);
      throw NilMapAssignment
    | Some h =>
      let t' := set_network (<[subnetInt := <[rest := true]> h]> (network t)) t in
      _ ← modify (λ ds, set_tenants (<[tenantID := t']> (tenants ds)) ds);
      _ ← go_db (claimTenantIP tenantID subnetInt rest);
      mret (Ok (IPv4 172 b0 b1 (GoInt.byte rest)))
    end
  end.

(** [AllocateTenantIP], lines 620-711.  [sort.Ints] sorts the tenant's
    own slice, so the sorted order is what every exit leaves behind. *)
Definition AllocateTenantIP (tenantID : string) : M (result net_IP) :=
  ds ← get;
  match tenants ds !! tenantID with
  | None => throw NilPointerDereference
  | Some t0 =>
    let t := set_subnets (sort_Ints (subnets t0)) t0 in
    let subnetInt := scanSubnets (network t) (subnets t) in
    if subnetInt =? 0 then
      match probeSubnets 4096 (allSubnets ds) 16 0 with
      | None => diverge
      | Some None =>
        _ ← modify (set_tenants (<[tenantID := t]> (tenants ds)));
        mret (Err (errors_New "Out of subnets"))
      | Some (Some (b0, b1)) =>
        let i := binary_BigEndian_Uint16 b0 b1 in
        _ ← modify (set_allSubnets (<[i := true]> (allSubnets ds)));
        claimHost tenantID
          (set_subnets (subnets t ++ [i]) (set_network (<[i := ∅]> (network t)) t))
          i b0 b1
      end
    else
      let '(b0, b1) := binary_BigEndian_PutUint16 subnetInt in
      claimHost tenantID t subnetInt b0 b1
  end.

(** *** Instances *)

(** The inner loops of [AddInstance] and [deleteInstance]: the first
    resource satisfying [p] has its usage replaced, then [break]. *)
Fixpoint updateFirst (p : types_Resource → bool) (f : Z → Z)
         (rs : list types_Resource) : list types_Resource :=
  match rs with
  | [] => []
  | r :: rs' =>
    if p r then set_Usage (f (Usage r)) r :: rs'
    else r :: updateFirst p f rs'
  end.

Definition named (name : string) (r : types_Resource) : bool := bool_decide (Rname r = name).
Definition instanceCount (r : types_Resource) : bool := Rtype r =? 1.

(** [for name, val := range usage { ... }] visiting the entries in the
    order [order]. *)
Definition chargeUsage (order : list (string * Z)) (rs : list types_Resource) : list types_Resource :=
  fold_left (λ rs e, updateFirst (named e.1) (λ u, GoInt.add u e.2) rs) order rs.

Definition refundUsage (order : list (string * Z)) (rs : list types_Resource) : list types_Resource :=
  fold_left (λ rs e, updateFirst (named e.1) (λ u, GoInt.sub u e.2) rs) order rs.

(** [GetInstance], lines 732-745. *)
Definition GetInstance (id : string) : M (result types_Instance) :=
  ds ← get;
  match instances ds !! id with
  | Some value => mret (Ok value)
  | None => mret (Err (errors_New "Instance Not Found"))
  end.

(** [AddInstance], lines 789-839. *)
Definition AddInstance (instance : types_Instance) : M (option error) :=
  _ ← modify (λ ds, set_instances (<[Instance_ID instance := instance]> (instances ds)) ds);
  t ← now;
  let instanceStat :=
    {| Stats_ID := Instance_ID instance;
       Stats_TenantID := Instance_TenantID instance;
       Stats_NodeID := Instance_NodeID instance;
       Stats_Timestamp := t;
       Stats_Status := Instance_State instance;
       Stats_VCPUUsage := 0; Stats_MemUsage := 0; Stats_DiskUsage := 0 |} in
  _ ← modify (λ ds, set_instanceLastStat
                      (<[Instance_ID instance := instanceStat]> (instanceLastStat ds)) ds);
  ds ← get;
  _ ← match tenants ds !! Instance_TenantID instance with
      | Some tenant =>
        let rs := chargeUsage (map_to_list (Instance_Usage instance)) (Resources (Tenant tenant)) in
        let rs := updateFirst instanceCount (λ u, GoInt.add u 1) rs in
        let tenant := set_Tenant (set_Resources rs (Tenant tenant)) tenant in
        let tenant := set_tenant_instances
                        (<[Instance_ID instance := instance]> (tenant_instances tenant)) tenant in
        modify (set_tenants (<[Instance_TenantID instance := tenant]> (tenants ds)))
      | None => mret tt
      end;
  _ ← go_db (addInstance instance);
  mret None.

(** [deleteInstance], lines 992-1042. *)
Definition deleteInstance (instanceID : string) : M (option error) :=
  _ ← modify (λ ds, set_instanceLastStat (delete instanceID (instanceLastStat ds)) ds);
  ds ← get;
  let i := instances ds !! instanceID in
  _ ← modify (set_instances (delete instanceID (instances ds)));
  match i with
  | None => throw NilPointerDereference
  | Some i =>
    ds ← get;
    match tenants ds !! Instance_TenantID i with
    | None => throw NilPointerDereference
    | Some tenant =>
      let tenant := set_tenant_instances (delete instanceID (tenant_instances tenant)) tenant in
      let rs := refundUsage (map_to_list (Instance_Usage i)) (Resources (Tenant tenant)) in
      let rs := updateFirst instanceCount (λ u, GoInt.sub u 1) rs in
      let tenant := set_Tenant (set_Resources rs (Tenant tenant)) tenant in
      _ ← modify (set_tenants (<[Instance_TenantID i := tenant]> (tenants ds)));
      _ ← (if bool_decide (Instance_NodeID i ≠ "") then
             ds ← get;
             match nodes ds !! Instance_NodeID i with
             | None => throw NilPointerDereference
             | Some n =>
               modify (set_nodes (<[Instance_NodeID i :=
                                      set_node_instances (delete instanceID (node_instances n)) n]>
                                    (nodes ds)))
             end
           else mret tt);
      _ ← db_call (removeInstance (Instance_ID i));
      ReleaseTenantIP (Instance_TenantID i) (Instance_IPAddress i)
    end
  end.

(** [DeleteInstance], lines 1045-1055. *)
Definition DeleteInstance (instanceID : string) : M (option error) :=
  err ← deleteInstance instanceID;
  match err with
  | Some e => mret (Some e)
  | None =>
    _ ← db_call (logEvent instanceID "info" ("Deleted Instance " +:+ instanceID));
    mret None
  end.

(** [removeTenantCNCI], lines 527-543. *)
Definition removeTenantCNCI (tenantID : string) : M (option error) :=
  ds ← get;
  match tenants ds !! tenantID with
  | None => mret (Some ErrNoTenant)
  | Some tenant =>
    let tenant := set_Tenant (set_CNCI "" "" (Tenant tenant)) tenant in
    _ ← modify (set_tenants (<[tenantID := tenant]> (tenants ds)));
    db_call (updateTenant (Tenant tenant))
  end.

(** The first arm of the [switch] in [StartFailure]. *)
Definition neverBecameReal (reason : payloads_StartFailureReason) : bool :=
  match reason with
  | FullCloud | FullComputeNode | NoComputeNodes | NoNetworkNodes
  | InvalidPayload | InvalidData | ImageFailure | NetworkFailure => true
  | _ => false
  end.

(** The loop of lines 879-885 over the tenant map. *)
Definition cnciTenant (instanceID : string) (ts : gmap string tenant) : option string :=
  match list_find (λ e : string * tenant, CNCIID (Tenant e.2) = instanceID) (map_to_list ts) with
  | Some (_, (key, _)) => Some key
  | None => None
  end.

(** [StartFailure], lines 873-942. *)
Definition StartFailure (instanceID : string) (reason : payloads_StartFailureReason) : M (option error) :=
  ds ← get;
  match cnciTenant instanceID (tenants ds) with
  | Some tenantID =>
    err ← removeTenantCNCI tenantID;
    _ ← db_call (logEvent tenantID "error"
                   ("CNCI Start Failure " +:+ instanceID +:+ ": " +:+ reason_String W reason));
    ds ← get;
    let c := cnciAddedChans ds !! tenantID in
    _ ← (if c is Some _ then modify (set_cnciAddedChans (delete tenantID (cnciAddedChans ds)))
         else mret tt);
    _ ← (if c is Some (Some ch) then send ch false else mret tt);
    mret err
  | None =>
    r ← GetInstance instanceID;
    match r with
    | Err e => mret (Some e)
    | Ok i =>
      _ ← (if neverBecameReal reason then deleteInstance instanceID else mret None);
      _ ← db_call (logEvent (Instance_TenantID i) "error"
                     ("Start Failure " +:+ instanceID +:+ ": " +:+ reason_String W reason));
      mret None
    end
  end.

(** *** Tenant usage history *)

(** [updateTenantUsageNeeded], lines 1162-1170. *)
Definition updateTenantUsageNeeded (delta : payloads_CiaoUsage) : bool :=
  if (VCPU delta =? 0) && (Memory delta =? 0) && (Disk delta =? 0) then false else true.

(** [tenantUsagePeriodMinutes] as a duration.  [Duration.Minutes] is the
    whole minutes plus the remaining nanoseconds scaled into [0, 1), so it
    is below 5 exactly when the duration is below five minutes. *)
Definition tenantUsagePeriod : Z := 5 * 60 * 1000000000.

Definition zeroUsage : payloads_CiaoUsage :=
  {| VCPU := 0; Memory := 0; Disk := 0; Timestamp := 0 |}.

Definition sumUsage (lastUsage delta : payloads_CiaoUsage) (stamp : Time) : payloads_CiaoUsage :=
  {| VCPU := GoInt.add (VCPU lastUsage) (VCPU delta);
     Memory := GoInt.add (Memory lastUsage) (Memory delta);
     Disk := GoInt.add (Disk lastUsage) (Disk delta);
     Timestamp := stamp |}.

(** [updateTenantUsage], lines 1172-1208.  The clock is read once for
    [time.Since] when there is a last point and once more for [time.Now]
    when a point is appended. *)
Definition updateTenantUsage (delta : payloads_CiaoUsage) (tenantID : string) : M unit :=
  if negb (updateTenantUsageNeeded delta) then mret tt
  else
    ds ← get;
    let tenantUsage' := default [] (tenantUsage ds !! tenantID) in
    match last tenantUsage' with
    | Some lastUsage =>
      t ← now;
      if t - Timestamp lastUsage <? tenantUsagePeriod then
        let newUsage := sumUsage lastUsage delta (Timestamp lastUsage) in
        modify (λ ds, set_tenantUsage
                        (<[tenantID := <[pred (length tenantUsage') := newUsage]> tenantUsage']>
                           (tenantUsage ds)) ds)
      else
        t' ← now;
        modify (λ ds, set_tenantUsage
                        (<[tenantID := tenantUsage' ++ [sumUsage lastUsage delta t']]>
                           (tenantUsage ds)) ds)
    | None =>
      t' ← now;
      modify (λ ds, set_tenantUsage
                      (<[tenantID := tenantUsage' ++ [sumUsage zeroUsage delta t']]>
                         (tenantUsage ds)) ds)
    end.

Definition countBefore (bound : Time) (l : list payloads_CiaoUsage) : nat :=
  fold_left (λ n u, if Timestamp u <? bound then S n else n) l 0%nat.

(** [GetTenantUsage], lines 1212-1240.  [t.After(u)] is [u < t]; the nil
    slice and the empty slice are both the empty list. *)
Definition GetTenantUsage (tenantID : string) (start end_ : Time) : M (result (list payloads_CiaoUsage)) :=
  ds ← get;
  let tenantUsage' := default [] (tenantUsage ds !! tenantID) in
  match head tenantUsage', last tenantUsage' with
  | Some u0, Some un =>
    if (end_ <? Timestamp u0) || (Timestamp un <? start) then mret (Ok [])
    else
      let first := countBefore start tenantUsage' in
      let last := countBefore end_ tenantUsage' in
      if (first <=? last)%nat then mret (Ok (take (last - first) (drop first tenantUsage')))
      else throw SliceBoundsOutOfRange
  | _, _ => mret (Ok [])
  end.

(** *** Block devices and storage attachments *)

(** [GetBlockDevice], lines 1460-1469. *)
Definition GetBlockDevice (ID : string) : M (result types_BlockData) :=
  ds ← get;
  match blockDevices ds !! ID with
  | Some data => mret (Ok data)
  | None => mret (Err ErrNoBlockData)
  end.

(** [AddBlockDevice], lines 1387-1407. *)
Definition AddBlockDevice (device : types_BlockData) : M (option error) :=
  ds ← get;
  let update := bool_decide (is_Some (blockDevices ds !! BlockData_ID device)) in
  _ ← modify (set_blockDevices (<[BlockData_ID device := device]> (blockDevices ds)));
  ds ← get;
  match tenants ds !! BlockData_TenantID device with
  | None => throw NilPointerDereference
  | Some t =>
    _ ← modify (set_tenants
                  (<[BlockData_TenantID device :=
                       set_devices (<[BlockData_ID device := device]> (devices t)) t]>
                     (tenants ds)));
    _ ← (if update then go_db (updateBlockData device) else go_db (createBlockData device));
    mret None
  end.

(** [UpdateBlockDevice], lines 1473-1483. *)
Definition UpdateBlockDevice (data : types_BlockData) : M (option error) :=
  ds ← get;
  match blockDevices ds !! BlockData_ID data with
  | None => mret (Some ErrNoBlockData)
  | Some _ => AddBlockDevice data
  end.

Fixpoint forEach {A} (l : list A) (body : A → M unit) : M unit :=
  match l with
  | [] => mret tt
  | x :: l' => _ ← body x; forEach l' body
  end.

(** The body of the loop of lines 1535-1574. *)
Definition attachObserved (instanceID v : string) : M unit :=
  ds ← get;
  let key : attachment := (instanceID, v) in
  match instanceVolumes ds !! key with
  | Some _ => mret tt
  | None =>
    id ← uuid_Generate_String;
    let a := {| Attachment_InstanceID := instanceID; Attachment_ID := id;
                Attachment_BlockID := v |} in
    _ ← modify (λ ds, set_attachments (<[id := a]> (attachments ds)) ds);
    _ ← modify (λ ds, set_instanceVolumes (<[key := id]> (instanceVolumes ds)) ds);
    err ← db_call (createStorageAttachment a);
    match err with
    | Some _ => mret tt
    | None =>
      r ← GetBlockDevice v;
      match r with
      | Err _ => mret tt
      | Ok bd => _ ← UpdateBlockDevice (set_BlockData_State InUse bd); mret tt
      end
    end
  end.

Definition zeroAttachment : types_StorageAttachment :=
  {| Attachment_ID := ""; Attachment_InstanceID := ""; Attachment_BlockID := "" |}.

(** The body of the loop of lines 1578-1604 for one entry of
    [instanceVolumes]; an entry deleted before the iteration reaches it is
    not produced. *)
Definition dropUnobserved (m : gmap string bool) (entry : attachment * string) : M unit :=
  ds ← get;
  match instanceVolumes ds !! entry.1 with
  | None => mret tt
  | Some ID =>
    let a := default zeroAttachment (attachments ds !! ID) in
    if default false (m !! Attachment_BlockID a) then mret tt
    else
      r ← GetBlockDevice (Attachment_BlockID a);
      match r with
      | Err _ => mret tt
      | Ok bd =>
        _ ← UpdateBlockDevice (set_BlockData_State Available bd);
        let key : attachment := (Attachment_InstanceID a, Attachment_BlockID a) in
        _ ← modify (λ ds, set_attachments (delete ID (attachments ds)) ds);
        modify (λ ds, set_instanceVolumes (delete key (instanceVolumes ds)) ds)
      end
  end.

(** [updateStorageAttachments], lines 1523-1606.  The second loop ranges
    over the whole of [instanceVolumes]; Go leaves the order of a map
    range unspecified, here it is the order of [map_to_list]. *)
Definition updateStorageAttachments (instanceID : string) (volumes : list string) : M unit :=
  let m : gmap string bool := fold_left (λ m v, <[v := true]> m) volumes ∅ in
  _ ← forEach volumes (attachObserved instanceID);
  ds ← get;
  forEach (map_to_list (instanceVolumes ds)) (dropUnobserved m).

End Datastore.

(** A parser for dotted-quad text, the part of [net.ParseIP] the examples
    below exercise. *)
Definition digit_value (c : Ascii.ascii) : option Z :=
  let n := Z.of_nat (Ascii.nat_of_ascii c) in
  if (48 <=? n) && (n <=? 57) then Some (n - 48) else None.

Fixpoint decimal_octet (acc : option Z) (s : string) : option Z * string :=
  match s with
  | EmptyString => (acc, EmptyString)
  | String c rest =>
    match digit_value c with
    | Some d =>
      let v := default 0 acc * 10 + d in
      if v <=? 255 then decimal_octet (Some v) rest else (None, EmptyString)
    | None => (acc, s)
    end
  end.

Definition dotted_quad (s : string) : option net_IP :=
  match decimal_octet None s with
  | (Some a, String "."%char s1) =>
    match decimal_octet None s1 with
    | (Some b, String "."%char s2) =>
      match decimal_octet None s2 with
      | (Some c, String "."%char s3) =>
        match decimal_octet None s3 with
        | (Some d, EmptyString) => Some (IPv4 a b c d)
        | _ => None
        end
      | _ => None
      end
    | _ => None
    end
  | _ => None
  end.

(** A world for concrete runs: dotted-quad addresses, a clock that ticks
    once a minute, numbered identifiers, and a store that never fails. *)
Definition quietWorld : World :=
  {| net_ParseIP := dotted_quad;
     time_Now := λ n, 60000000000 * Z.of_nat n;
     uuid_Generate := λ n, String (Ascii.ascii_of_nat (65 + n)) EmptyString;
     db := λ _ _, None;
     reason_String := λ _, "reason" |}.

Definition emptyTenant (id : string) : tenant :=
  {| Tenant := {| Tenant_ID := id; CNCIID := ""; CNCIMAC := ""; CNCIIP := "";
                  Resources := [] |};
     network := ∅; subnets := []; tenant_instances := ∅; devices := ∅ |}.

Definition oneTenant (id : string) : Datastore :=
  set_tenants {[ id := emptyTenant id ]} emptyDatastore.


Definition allocateMany (n : N) (tenantID : string) (ds : Datastore) : Datastore :=
  N.iter n (λ ds, final (AllocateTenantIP tenantID ds)) ds.

(** The address the allocator hands out after [n] earlier allocations to
    the only tenant of a datastore that started empty. *)
Definition nthAddress (n : N) : net_IP :=
  let q := Z.of_N n / 253 in
  IPv4 172 (16 + q / 256) (q mod 256) (2 + Z.of_N n mod 253).

(** ** States and inputs used in the statements *)

Definition scanStep (network : gmap Z (gmap Z bool)) (subnetInt k : Z) : Z :=
  if len (network !! k) <? 253 then GoInt.uint16 k else subnetInt.

(** The allocator state of a lone tenant after [n] allocations and no
    release: [subnetCount n] subnets from index 4096 on, subnet [j] holding
    hosts 2 .. 1 + [hostCount n j]. *)
Definition subnetCount (n : Z) : Z := (n + 252) / 253.
Definition hostCount (n j : Z) : Z := Z.min 253 (n - 253 * j).

Definition hostsFilled (h : gmap Z bool) (c : Z) : Prop :=
  Z.of_nat (size h) = c ∧
  ∀ x, h !! x = if bool_decide (2 ≤ x < 2 + c) then Some true else None.

Definition allocatorAfter (tenantID : string) (n : Z) (ds : Datastore) : Prop :=
  ∃ t, tenants ds !! tenantID = Some t ∧
       subnets t = seqZ 4096 (subnetCount n) ∧
       (∀ k, 4096 ≤ k < 8192 →
             claimed (allSubnets ds) k = bool_decide (k < 4096 + subnetCount n)) ∧
       (∀ j, 0 ≤ j < subnetCount n →
             ∃ h, network t !! (4096 + j) = Some h ∧ hostsFilled h (hostCount n j)).

(** A datastore in which [tenantID] has no subnet and no subnet is claimed
    by anyone. *)
Definition freshAllocator (tenantID : string) (ds : Datastore) : Prop :=
  (∃ t, tenants ds !! tenantID = Some t ∧ network t = ∅ ∧ subnets t = []) ∧
  allSubnets ds = ∅.

Definition stable (p : types_Resource → bool) : Prop := ∀ u r, p (set_Usage u r) = p r.

(** What [ReleaseTenantIP] may change of a tenant is its host tables only. *)
Definition sameButNetwork (t t' : tenant) : Prop :=
  Tenant t' = Tenant t ∧ subnets t' = subnets t ∧
  tenant_instances t' = tenant_instances t ∧ devices t' = devices t.

Definition smallInstance : types_Instance :=
  {| Instance_ID := "i1"; Instance_TenantID := "t1"; Instance_NodeID := "";
     Instance_State := "pending"; Instance_IPAddress := "172.16.0.2";
     Instance_Usage := {[ "vcpus" := 2 ]}; Instance_SSHIP := ""; Instance_SSHPort := 0 |}.

Definition meteredTenant (id : string) : tenant :=
  {| Tenant := {| Tenant_ID := id; CNCIID := ""; CNCIMAC := ""; CNCIIP := "";
                  Resources := [ {| Rname := "instances"; Rtype := 1; Limit := 10; Usage := 0 |};
                                 {| Rname := "vcpus"; Rtype := 2; Limit := 8; Usage := 0 |} ] |};
     network := ∅; subnets := []; tenant_instances := ∅; devices := ∅ |}.

Definition meteredDatastore : Datastore :=
  set_tenants {[ "t1" := meteredTenant "t1" ]} emptyDatastore.

Definition history (tenantID : string) (ds : Datastore) : list payloads_CiaoUsage :=
  default [] (tenantUsage ds !! tenantID).

Definition someDelta : payloads_CiaoUsage :=
  {| VCPU := 2; Memory := 512; Disk := 0; Timestamp := 0 |}.

(** A usage history in ascending order of time. *)
Definition ascending (l : list payloads_CiaoUsage) : Prop :=
  Sorted (λ u v, Timestamp u ≤ Timestamp v) l.

Definition within (start end_ : Time) (u : payloads_CiaoUsage) : Prop :=
  start ≤ Timestamp u < end_.

#[global] Instance within_dec start end_ u : Decision (within start end_ u) :=
  and_dec (Z_le_dec start (Timestamp u)) (Z_lt_dec (Timestamp u) end_).

Definition sampleAt (stamp : Time) : payloads_CiaoUsage :=
  {| VCPU := 1; Memory := 1; Disk := 1; Timestamp := stamp |}.

Definition twoSamples : Datastore :=
  set_tenantUsage {[ "t1" := [sampleAt 7; sampleAt 10] ]} emptyDatastore.

Definition orphanInstance : types_Instance :=
  {| Instance_ID := "i1"; Instance_TenantID := "nobody"; Instance_NodeID := "";
     Instance_State := "pending"; Instance_IPAddress := "";
     Instance_Usage := {[ "vcpus" := 2 ]}; Instance_SSHIP := ""; Instance_SSHPort := 0 |}.

Definition returned {A} (o : outcome A) : option A :=
  match o with
  | Returns a _ => Some a
  | _ => None
  end.

(** The entry of host [x] in the host table of subnet [k] of a tenant. *)
Definition hostEntry (tenantID : string) (k x : Z) (ds : Datastore) : option bool :=
  t ← tenants ds !! tenantID; h ← network t !! k; h !! x.

Definition oneClaimed : Datastore := allocateMany 1 "t1" (oneTenant "t1").

Definition claimedTenant : tenant :=
  set_subnets [4096] (set_network {[ 4096 := {[ 2 := true ]} ]} (emptyTenant "t1")).

Definition failingStore : World :=
  {| net_ParseIP := dotted_quad;
     time_Now := λ n, Z.of_nat n;
     uuid_Generate := λ _, "id";
     db := λ _ c, match c with
                  | releaseTenantIP _ _ _ => Some (db_error 1)
                  | _ => None
                  end;
     reason_String := λ _, "reason" |}.

Definition fullSubnet : Datastore := allocateMany 253 "t1" (oneTenant "t1").

Definition afterRelease : Datastore :=
  final (ReleaseTenantIP quietWorld "t1" "172.16.0.2" fullSubnet).

Definition volumeV2 : types_BlockData :=
  {| BlockData_ID := "v2"; BlockData_TenantID := "t1"; BlockData_Size := 1;
     BlockData_State := Available; BlockData_CreateTime := 0 |}.

Definition withVolume : Datastore :=
  final (AddBlockDevice volumeV2 (oneTenant "t1")).

Definition attachedToI2 : Datastore :=
  final (updateStorageAttachments quietWorld "i2" ["v2"] withVolume).

Definition afterI1 : Datastore :=
  final (updateStorageAttachments quietWorld "i1" [] attachedToI2).

Definition orphaned : Datastore :=
  final (AddInstance quietWorld orphanInstance emptyDatastore).

(** An instance of tenant t1, without an address, that names a node the
    datastore has never seen. *)
Definition strayInstance : types_Instance :=
  {| Instance_ID := "i1"; Instance_TenantID := "t1"; Instance_NodeID := "n1";
     Instance_State := "pending"; Instance_IPAddress := "";
     Instance_Usage := {[ "vcpus" := 2 ]}; Instance_SSHIP := ""; Instance_SSHPort := 0 |}.

Definition strayAdded : Datastore :=
  final (AddInstance quietWorld strayInstance meteredDatastore).

(** * Properties *)

Ltac exec :=
  unfold mbind, M_bind, mret, M_ret, modify, get, throw, diverge, go_db, send; cbn.

(** ** Machine integers *)

Lemma wrap_valid x : GoInt.valid (GoInt.wrap x).
Proof.
  unfold GoInt.valid, GoInt.wrap, GoInt.min_int, GoInt.max_int.
  pose proof (Z.mod_pos_bound (x + 2 ^ 63) (2 ^ 64) ltac:(lia)). lia.
Qed.

Lemma wrap_id x : GoInt.valid x → GoInt.wrap x = x.
Proof.
  unfold GoInt.valid, GoInt.wrap, GoInt.min_int, GoInt.max_int. intros H.
  rewrite Z.mod_small; lia.
Qed.

Lemma wrap_wrap_add x y : GoInt.wrap (GoInt.wrap x + y) = GoInt.wrap (x + y).
Proof.
  unfold GoInt.wrap. f_equal.
  replace ((x + 2 ^ 63) mod 2 ^ 64 - 2 ^ 63 + y + 2 ^ 63) with ((x + 2 ^ 63) mod 2 ^ 64 + y) by lia.
  rewrite Zplus_mod_idemp_l. f_equal. lia.
Qed.

Lemma sub_add x v : GoInt.valid x → GoInt.sub (GoInt.add x v) v = x.
Proof.
  intros H. unfold GoInt.sub, GoInt.add.
  replace (GoInt.wrap (x + v) - v) with (GoInt.wrap (x + v) + - v) by lia.
  rewrite wrap_wrap_add. replace (x + v + - v) with x by lia. by apply wrap_id.
Qed.

(** ** The IP allocator *)

Lemma sort_Ints_seqZ a n : sort_Ints (seqZ a n) = seqZ a n.
Proof.
  destruct (decide (n ≤ 0)) as [Hn|Hn]; [by rewrite seqZ_nil by lia|].
  rewrite <- (Z2Nat.id n) by lia. generalize (Z.to_nat n) as i. clear.
  intros i. revert a. induction i as [|i IH]; intros a; [done|].
  rewrite seqZ_cons by lia. cbn [sort_Ints foldr].
  replace (Z.pred (Z.of_nat (S i))) with (Z.of_nat i) by lia.
  fold (sort_Ints (seqZ (Z.succ a) (Z.of_nat i))). rewrite IH.
  destruct i as [|i]; [done|].
  rewrite seqZ_cons by lia. cbn [insert_Int].
  by rewrite (proj2 (Z.leb_le a (Z.succ a))) by lia.
Qed.

Lemma scanSubnets_fold network l : scanSubnets network l = fold_left (scanStep network) l 0.
Proof. reflexivity. Qed.

Lemma scan_full network l acc :
  Forall (λ k, 253 ≤ len (network !! k)) l → fold_left (scanStep network) l acc = acc.
Proof.
  revert acc. induction l as [|k l IH]; intros acc Hl; [done|].
  apply Forall_cons in Hl as [Hk Hl]. cbn. unfold scanStep at 2.
  rewrite (proj2 (Z.ltb_ge _ _)) by lia. by apply IH.
Qed.

Lemma probeSubnets_free all target fuel b0 b1 :
  16 ≤ b0 ≤ 31 → 0 ≤ b1 ≤ 255 → target < 8192 →
  b0 * 256 + b1 ≤ target →
  (target - (b0 * 256 + b1) < Z.of_nat fuel) →
  (∀ k, b0 * 256 + b1 ≤ k < target → claimed all k = true) →
  claimed all target = false →
  probeSubnets fuel all b0 b1 = Some (Some (target / 256, target mod 256)).
Proof.
  revert b0 b1. induction fuel as [|fuel IH]; intros b0 b1 H0 H1 Ht Hle Hfuel Hc Hf; [lia|].
  cbn [probeSubnets]. unfold binary_BigEndian_Uint16.
  destruct (decide (b0 * 256 + b1 = target)) as [Heq|Hne].
  - rewrite Heq, Hf. cbn. do 3 f_equal; Z.div_mod_to_equations; lia.
  - rewrite Hc by lia. cbn [negb].
    destruct (Z.eqb_spec b1 255) as [->|Hb1].
    + destruct (Z.eqb_spec b0 31) as [->|Hb0]; [lia|].
      unfold GoInt.byte. rewrite Z.mod_small by lia.
      apply IH; try lia; try done; intros k Hk; apply Hc; lia.
    + unfold GoInt.byte. rewrite Z.mod_small by lia.
      apply IH; try lia; try done; intros k Hk; apply Hc; lia.
Qed.

Lemma probeSubnets_exhausted all fuel b0 b1 :
  16 ≤ b0 ≤ 31 → 0 ≤ b1 ≤ 255 →
  (8192 - (b0 * 256 + b1) ≤ Z.of_nat fuel) →
  (∀ k, b0 * 256 + b1 ≤ k < 8192 → claimed all k = true) →
  probeSubnets fuel all b0 b1 = Some None.
Proof.
  revert b0 b1. induction fuel as [|fuel IH]; intros b0 b1 H0 H1 Hfuel Hc; [lia|].
  cbn [probeSubnets]. unfold binary_BigEndian_Uint16.
  rewrite Hc by lia. cbn [negb].
  destruct (Z.eqb_spec b1 255) as [->|Hb1].
  - destruct (Z.eqb_spec b0 31) as [->|Hb0]; [done|].
    unfold GoInt.byte. rewrite Z.mod_small by lia.
    apply IH; try lia; try done; intros k Hk; apply Hc; lia.
  - unfold GoInt.byte. rewrite Z.mod_small by lia.
    apply IH; try lia; try done; intros k Hk; apply Hc; lia.
Qed.

(** The subnet loop always leaves through one of its two exits. *)
Lemma probeSubnets_total all fuel b0 b1 :
  16 ≤ b0 ≤ 31 → 0 ≤ b1 ≤ 255 →
  (8192 - (b0 * 256 + b1) ≤ Z.of_nat fuel) →
  probeSubnets fuel all b0 b1 ≠ None.
Proof.
  revert b0 b1. induction fuel as [|fuel IH]; intros b0 b1 H0 H1 Hfuel; [lia|].
  cbn [probeSubnets]. destruct (negb _); [done|].
  destruct (Z.eqb_spec b1 255) as [->|Hb1].
  - destruct (Z.eqb_spec b0 31) as [->|Hb0]; [done|].
    unfold GoInt.byte. rewrite Z.mod_small by lia. apply IH; lia.
  - unfold GoInt.byte. rewrite Z.mod_small by lia. apply IH; lia.
Qed.

Lemma probeHosts_total hosts fuel rest :
  2 ≤ rest ≤ 255 → (256 - rest ≤ Z.of_nat fuel) → probeHosts fuel hosts rest ≠ None.
Proof.
  revert rest. induction fuel as [|fuel IH]; intros rest Hr Hfuel; [lia|].
  cbn [probeHosts]. destruct (negb _); [done|].
  destruct (Z.eqb_spec rest 255); [done|]. apply IH; lia.
Qed.

Lemma probeHosts_free hosts target fuel rest :
  rest ≤ target ≤ 255 →
  (target - rest < Z.of_nat fuel) →
  (∀ x, rest ≤ x < target → hosts_claimed hosts x = true) →
  hosts_claimed hosts target = false →
  probeHosts fuel hosts rest = Some (Some target).
Proof.
  revert rest. induction fuel as [|fuel IH]; intros rest Hr Hfuel Hc Hf; [lia|].
  cbn [probeHosts].
  destruct (decide (rest = target)) as [->|Hne]; [by rewrite Hf|].
  rewrite Hc by lia. cbn [negb].
  destruct (Z.eqb_spec rest 255); [lia|].
  apply IH; try lia; try done; intros x Hx; apply Hc; lia.
Qed.

Arguments probeSubnets : simpl never.
Arguments probeHosts : simpl never.
Arguments scanSubnets : simpl never.
Arguments sort_Ints : simpl never.

Lemma hostsFilled_empty : hostsFilled ∅ 0.
Proof.
  split; [done|]. intros x. rewrite lookup_empty.
  by rewrite bool_decide_eq_false_2 by lia.
Qed.

Lemma hostsFilled_claim h c :
  0 ≤ c → hostsFilled h c → hostsFilled (<[2 + c := true]> h) (c + 1).
Proof.
  intros Hc [Hsize Hh]. split.
  - rewrite map_size_insert_None; [lia|].
    rewrite Hh. by rewrite bool_decide_eq_false_2 by lia.
  - intros x. rewrite lookup_insert. case_decide as Hx.
    + subst x. by rewrite bool_decide_eq_true_2 by lia.
    + rewrite Hh. repeat case_bool_decide; try done; lia.
Qed.

Lemma claimHost_filled tenantID t k b0 b1 h c ds :
  network t !! k = Some h → hostsFilled h c → 0 ≤ c < 253 →
  claimHost tenantID t k b0 b1 ds =
    Returns (Ok (IPv4 172 b0 b1 (2 + c)))
      (set_effects (effects ds ++ [Go (claimTenantIP tenantID k (2 + c))])
         (set_tenants
            (<[tenantID := set_network (<[k := <[2 + c := true]> h]> (network t)) t]> (tenants ds))
            ds)).
Proof.
  intros Hk [Hsize Hh] Hc. unfold claimHost. rewrite Hk.
  rewrite (probeHosts_free (Some h) (2 + c) 254 2); [|lia|lia| |].
  - exec. unfold GoInt.byte. by rewrite Z.mod_small by lia.
  - intros x Hx. cbn. unfold claimed. rewrite Hh.
    by rewrite bool_decide_eq_true_2 by lia.
  - cbn. unfold claimed. rewrite Hh. by rewrite bool_decide_eq_false_2 by lia.
Qed.

Lemma scanSubnets_after network n :
  0 ≤ n ≤ 253 * 4096 →
  (∀ j, 0 ≤ j < subnetCount n →
        ∃ h, network !! (4096 + j) = Some h ∧ hostsFilled h (hostCount n j)) →
  scanSubnets network (seqZ 4096 (subnetCount n)) =
    if decide (n mod 253 = 0) then 0 else 4096 + n / 253.
Proof.
  intros Hn Hnet. rewrite scanSubnets_fold. unfold subnetCount, hostCount in *.
  case_decide as Hr.
  - apply scan_full. apply Forall_forall. intros k Hk%elem_of_seqZ.
    destruct (Hnet (k - 4096)) as (h & Hh & Hsize & _); [lia|].
    replace (4096 + (k - 4096)) with k in Hh by lia. rewrite Hh. cbn.
    rewrite Hsize. Z.div_mod_to_equations. lia.
  - replace ((n + 252) / 253) with (n / 253 + 1) by (Z.div_mod_to_equations; lia).
    rewrite seqZ_app by (Z.div_mod_to_equations; lia).
    rewrite fold_left_app. rewrite (scan_full network (seqZ 4096 (n / 253)) 0).
    + change (seqZ (4096 + n / 253) 1) with [4096 + n / 253]. cbn. unfold scanStep.
      destruct (Hnet (n / 253)) as (h & Hh & Hsize & _); [Z.div_mod_to_equations; lia|].
      rewrite Hh. cbn. rewrite Hsize.
      rewrite (proj2 (Z.ltb_lt _ _)) by (Z.div_mod_to_equations; lia).
      unfold GoInt.uint16. rewrite Z.mod_small; [done|]. Z.div_mod_to_equations; lia.
    + apply Forall_forall. intros k Hk%elem_of_seqZ.
      destruct (Hnet (k - 4096)) as (h & Hh & Hsize & _); [Z.div_mod_to_equations; lia|].
      replace (4096 + (k - 4096)) with k in Hh by lia. rewrite Hh. cbn.
      rewrite Hsize. Z.div_mod_to_equations. lia.
Qed.

Lemma AllocateTenantIP_next tenantID n ds :
  0 ≤ n < 253 * 4096 → allocatorAfter tenantID n ds →
  ∃ ds', AllocateTenantIP tenantID ds = Returns (Ok (nthAddress (Z.to_N n))) ds' ∧
         allocatorAfter tenantID (n + 1) ds'.
Proof.
  intros Hn (t & Ht & Hsub & Hall & Hnet).
  unfold AllocateTenantIP, nthAddress. exec. rewrite Ht. cbn.
  rewrite Hsub, sort_Ints_seqZ, (scanSubnets_after _ n) by (done || lia).
  rewrite Z2N.id by lia.
  case_decide as Hr.
  - (* every subnet of the tenant is full: a new one is claimed *)
    assert (Hs : subnetCount n = n / 253)
      by (unfold subnetCount; Z.div_mod_to_equations; lia).
    assert (Hs' : subnetCount (n + 1) = n / 253 + 1)
      by (unfold subnetCount; Z.div_mod_to_equations; lia).
    cbn.
    assert (Hq : 0 ≤ n / 253 < 4096) by (Z.div_mod_to_equations; lia).
    assert (Hbelow : ∀ k, 16 * 256 + 0 ≤ k < 4096 + n / 253 → claimed (allSubnets ds) k = true).
    { intros k Hk. rewrite Hall by lia. apply bool_decide_eq_true_2. lia. }
    assert (Hfree : claimed (allSubnets ds) (4096 + n / 253) = false).
    { rewrite Hall by lia. apply bool_decide_eq_false_2. lia. }
    rewrite (probeSubnets_free _ (4096 + n / 253)) by (done || lia).
    exec.
    assert (Hi : binary_BigEndian_Uint16 ((4096 + n / 253) / 256) ((4096 + n / 253) mod 256)
                 = 4096 + n / 253)
      by (unfold binary_BigEndian_Uint16; Z.div_mod_to_equations; lia).
    rewrite Hi.
    erewrite (claimHost_filled _ _ _ _ _ ∅ 0);
      [|cbn; apply lookup_insert_eq|apply hostsFilled_empty|lia].
    eexists. split.
    { do 3 f_equal; Z.div_mod_to_equations; lia. }
    eexists. cbn. split; [apply lookup_insert_eq|]. cbn. split; [|split].
    + rewrite Hs', Hs. rewrite seqZ_app by (Z.div_mod_to_equations; lia). done.
    + intros k Hk. unfold claimed. rewrite lookup_insert. case_decide as Hk'.
      * subst k. cbn. symmetry. apply bool_decide_eq_true_2. lia.
      * fold (claimed (allSubnets ds) k). rewrite Hall by done.
        apply bool_decide_ext. lia.
    + intros j Hj. destruct (decide (j = n / 253)) as [->|Hne].
      * eexists. rewrite lookup_insert_eq. split; [done|].
        replace (hostCount (n + 1) (n / 253)) with (0 + 1)
          by (unfold hostCount; Z.div_mod_to_equations; lia).
        apply hostsFilled_claim; [lia|apply hostsFilled_empty].
      * rewrite !lookup_insert_ne by lia.
        destruct (Hnet j) as (h & Hh & Hf); [lia|]. exists h. split; [done|].
        replace (hostCount (n + 1) j) with (hostCount n j)
          by (unfold hostCount; Z.div_mod_to_equations; lia). done.
  - (* the last subnet still has room *)
    assert (Hs : subnetCount n = n / 253 + 1)
      by (unfold subnetCount; Z.div_mod_to_equations; lia).
    assert (Hs' : subnetCount (n + 1) = n / 253 + 1)
      by (unfold subnetCount; Z.div_mod_to_equations; lia).
    rewrite (proj2 (Z.eqb_neq _ _)) by (Z.div_mod_to_equations; lia).
    cbn.
    destruct (Hnet (n / 253)) as (h & Hh & Hf); [Z.div_mod_to_equations; lia|].
    replace (hostCount n (n / 253)) with (n mod 253) in Hf
      by (unfold hostCount; Z.div_mod_to_equations; lia).
    erewrite (claimHost_filled _ _ _ _ _ h (n mod 253));
      [|done|done|Z.div_mod_to_equations; lia].
    eexists. split.
    { do 3 f_equal; Z.div_mod_to_equations; lia. }
    eexists. cbn. split; [apply lookup_insert_eq|]. cbn. split; [|split].
    + by rewrite Hs', <- Hs.
    + intros k Hk. rewrite Hall by done. by rewrite Hs, Hs'.
    + intros j Hj. destruct (decide (j = n / 253)) as [->|Hne].
      * eexists. rewrite lookup_insert_eq. split; [done|].
        replace (hostCount (n + 1) (n / 253)) with (n mod 253 + 1)
          by (unfold hostCount; Z.div_mod_to_equations; lia).
        apply hostsFilled_claim; [Z.div_mod_to_equations; lia|done].
      * rewrite !lookup_insert_ne by lia.
        destruct (Hnet j) as (h' & Hh' & Hf'); [lia|]. exists h'. split; [done|].
        replace (hostCount (n + 1) j) with (hostCount n j)
          by (unfold hostCount; Z.div_mod_to_equations; lia). done.
Qed.

Lemma AllocateTenantIP_out_of_subnets tenantID ds :
  allocatorAfter tenantID (253 * 4096) ds →
  ∃ ds', AllocateTenantIP tenantID ds = Returns (Err (errors_New "Out of subnets")) ds' ∧
         allocatorAfter tenantID (253 * 4096) ds'.
Proof.
  intros (t & Ht & Hsub & Hall & Hnet).
  unfold AllocateTenantIP. exec. rewrite Ht. cbn.
  rewrite Hsub, sort_Ints_seqZ, (scanSubnets_after _ (253 * 4096)) by (done || lia).
  change (subnetCount (253 * 4096)) with 4096 in *.
  cbn. rewrite probeSubnets_exhausted; [|lia|lia|lia|].
  - eexists. split; [done|]. exists (set_subnets (seqZ 4096 4096) t). cbn.
    split; [apply lookup_insert_eq|]. done.
  - intros k Hk. rewrite Hall by lia. apply bool_decide_eq_true_2. lia.
Qed.

Lemma freshAllocator_after tenantID ds :
  freshAllocator tenantID ds → allocatorAfter tenantID 0 ds.
Proof.
  intros [(t & Ht & Hnet & Hsub) Hall]. exists t. split; [done|].
  change (subnetCount 0) with 0. split; [done|]. split.
  - intros k Hk. rewrite Hall. unfold claimed. rewrite lookup_empty. cbn.
    symmetry. apply bool_decide_eq_false_2. lia.
  - intros j Hj. lia.
Qed.

Lemma allocateMany_succ n tenantID ds :
  allocateMany (N.succ n) tenantID ds =
  final (AllocateTenantIP tenantID (allocateMany n tenantID ds)).
Proof. unfold allocateMany. by rewrite N.iter_succ. Qed.

Lemma allocateMany_after tenantID ds n :
  freshAllocator tenantID ds →
  allocatorAfter tenantID (Z.min (Z.of_N n) (253 * 4096)) (allocateMany n tenantID ds).
Proof.
  intros Hfresh. induction n as [|n IH] using N.peano_ind.
  - by apply freshAllocator_after.
  - rewrite allocateMany_succ.
    destruct (decide (Z.of_N n < 253 * 4096)) as [Hlt|Hge].
    + rewrite Z.min_l in IH by lia.
      destruct (AllocateTenantIP_next tenantID (Z.of_N n) _ ltac:(lia) IH) as (ds' & -> & Hds').
      cbn. by replace (Z.of_N (N.succ n) `min` (253 * 4096)) with (Z.of_N n + 1) by lia.
    + rewrite Z.min_r in IH by lia. rewrite Z.min_r by lia.
      destruct (AllocateTenantIP_out_of_subnets tenantID _ IH) as (ds' & -> & Hds').
      done.
Qed.

(** The [n]-th call, counting from 0. *)
Lemma allocateMany_result tenantID ds n :
  freshAllocator tenantID ds →
  ∃ ds', AllocateTenantIP tenantID (allocateMany n tenantID ds) =
         Returns (if decide (n < 253 * 4096)%N then Ok (nthAddress n)
                  else Err (errors_New "Out of subnets")) ds'.
Proof.
  intros Hfresh. pose proof (allocateMany_after tenantID ds n Hfresh) as Hinv.
  case_decide as Hn.
  - rewrite Z.min_l in Hinv by lia.
    destruct (AllocateTenantIP_next tenantID (Z.of_N n) _ ltac:(lia) Hinv) as (ds' & Hds' & _).
    exists ds'. by rewrite N2Z.id in Hds'.
  - rewrite Z.min_r in Hinv by lia.
    destruct (AllocateTenantIP_out_of_subnets tenantID _ Hinv) as (ds' & Hds' & _).
    by exists ds'.
Qed.

Lemma nthAddress_inj m n :
  (m < 253 * 4096)%N → (n < 253 * 4096)%N → nthAddress m = nthAddress n → m = n.
Proof.
  unfold nthAddress. intros Hm Hn [= H1 H2 H3].
  apply N2Z.inj. Z.div_mod_to_equations. lia.
Qed.

Lemma oneTenant_fresh id : freshAllocator id (oneTenant id).
Proof.
  split; [|done]. exists (emptyTenant id). split; [|done].
  cbn. apply lookup_singleton_eq.
Qed.

(** ** Tenant resource counters *)

Lemma named_stable name : stable (named name).
Proof. by intros u r. Qed.

Lemma instanceCount_stable : stable instanceCount.
Proof. by intros u r. Qed.

Lemma updateFirst_comm p q f g rs :
  stable p → stable q → (∀ u, f (g u) = g (f u)) →
  updateFirst p f (updateFirst q g rs) = updateFirst q g (updateFirst p f rs).
Proof.
  intros Hp Hq Hfg. induction rs as [|r rs IH]; [done|].
  cbn. destruct (p r) eqn:Hpr, (q r) eqn:Hqr; cbn; rewrite ?Hp, ?Hq, ?Hpr, ?Hqr.
  - unfold set_Usage; cbn. by rewrite Hfg.
  - done.
  - done.
  - by rewrite IH.
Qed.

Lemma updateFirst_inverse p f g rs :
  stable p → Forall (λ r, GoInt.valid (Usage r)) rs →
  (∀ u, GoInt.valid u → g (f u) = u) →
  updateFirst p g (updateFirst p f rs) = rs.
Proof.
  intros Hp Hrs Hgf. induction Hrs as [|r rs Hr Hrs IH]; [done|].
  cbn. destruct (p r) eqn:Hpr; cbn; rewrite ?Hp, Hpr.
  - unfold set_Usage; cbn. rewrite Hgf by done. by destruct r.
  - by rewrite IH.
Qed.

Lemma add_sub_comm v w u : GoInt.add (GoInt.sub u w) v = GoInt.sub (GoInt.add u v) w.
Proof.
  unfold GoInt.add, GoInt.sub.
  replace (GoInt.wrap (u + v) - w) with (GoInt.wrap (u + v) + - w) by lia.
  replace (u - w) with (u + - w) by lia.
  rewrite !wrap_wrap_add. f_equal. lia.
Qed.

Lemma add_add_comm v w u : GoInt.add (GoInt.add u w) v = GoInt.add (GoInt.add u v) w.
Proof. unfold GoInt.add. rewrite !wrap_wrap_add. f_equal. lia. Qed.

Lemma sub_sub_comm v w u : GoInt.sub (GoInt.sub u w) v = GoInt.sub (GoInt.sub u v) w.
Proof.
  unfold GoInt.sub.
  replace (GoInt.wrap (u - w) - v) with (GoInt.wrap (u + - w) + - v) by (f_equal; lia).
  replace (GoInt.wrap (u - v) - w) with (GoInt.wrap (u + - v) + - w) by (f_equal; lia).
  rewrite !wrap_wrap_add. f_equal. lia.
Qed.

(** A single update slides through the whole charging loop. *)
Lemma chargeUsage_comm p f order rs :
  stable p → (∀ v u, f (GoInt.add u v) = GoInt.add (f u) v) →
  chargeUsage order (updateFirst p f rs) = updateFirst p f (chargeUsage order rs).
Proof.
  intros Hp Hf. revert rs. induction order as [|e order IH]; intros rs; [done|].
  cbn. rewrite <- IH. f_equal.
  apply updateFirst_comm; [apply named_stable|done|]. intros u. by rewrite Hf.
Qed.

Lemma refundUsage_comm p f order rs :
  stable p → (∀ v u, f (GoInt.sub u v) = GoInt.sub (f u) v) →
  refundUsage order (updateFirst p f rs) = updateFirst p f (refundUsage order rs).
Proof.
  intros Hp Hf. revert rs. induction order as [|e order IH]; intros rs; [done|].
  cbn. rewrite <- IH. f_equal.
  apply updateFirst_comm; [apply named_stable|done|]. intros u. by rewrite Hf.
Qed.

Lemma updateFirst_valid p f rs :
  (∀ u, GoInt.valid (f u)) → Forall (λ r, GoInt.valid (Usage r)) rs →
  Forall (λ r, GoInt.valid (Usage r)) (updateFirst p f rs).
Proof.
  intros Hf Hrs. induction Hrs as [|r rs Hr Hrs IH]; [done|].
  cbn. destruct (p r); constructor; try done. cbn. apply Hf.
Qed.

Lemma chargeUsage_valid order rs :
  Forall (λ r, GoInt.valid (Usage r)) rs →
  Forall (λ r, GoInt.valid (Usage r)) (chargeUsage order rs).
Proof.
  revert rs. induction order as [|e order IH]; intros rs Hrs; [done|].
  cbn. apply IH. apply updateFirst_valid; [|done]. intros u. apply wrap_valid.
Qed.

Lemma refund_charge order rs :
  Forall (λ r, GoInt.valid (Usage r)) rs →
  refundUsage order (chargeUsage order rs) = rs.
Proof.
  intros Hrs. induction order as [|e order IH]; [done|].
  cbn. fold (chargeUsage order (updateFirst (named e.1) (λ u, GoInt.add u e.2) rs)).
  fold (refundUsage order
          (updateFirst (named e.1) (λ u, GoInt.sub u e.2)
             (chargeUsage order (updateFirst (named e.1) (λ u, GoInt.add u e.2) rs)))).
  rewrite chargeUsage_comm; [|apply named_stable|intros v u; apply add_add_comm].
  rewrite updateFirst_inverse; [done|apply named_stable|by apply chargeUsage_valid|].
  intros u Hu. by apply sub_add.
Qed.

(** [AddInstance]'s changes to the counters are undone by [deleteInstance]'s. *)
Lemma counters_restored order rs :
  Forall (λ r, GoInt.valid (Usage r)) rs →
  updateFirst instanceCount (λ u, GoInt.sub u 1)
    (refundUsage order
       (updateFirst instanceCount (λ u, GoInt.add u 1) (chargeUsage order rs))) = rs.
Proof.
  intros Hrs.
  rewrite refundUsage_comm; [|apply instanceCount_stable|intros v u; apply add_sub_comm].
  rewrite refund_charge by done.
  apply updateFirst_inverse; [apply instanceCount_stable|done|].
  intros u Hu. by apply sub_add.
Qed.

(** The order in which Go ranges over [instance.Usage] does not matter. *)
Lemma chargeUsage_Permutation order order' rs :
  order ≡ₚ order' → chargeUsage order rs = chargeUsage order' rs.
Proof.
  intros Hperm. revert rs. induction Hperm as [|e l l' _ IH|e e' l|l l' l'' _ IH _ IH']; intros rs.
  - done.
  - cbn. apply IH.
  - cbn. f_equal. apply updateFirst_comm; try apply named_stable.
    intros u. apply add_add_comm.
  - by rewrite IH.
Qed.

Lemma refundUsage_Permutation order order' rs :
  order ≡ₚ order' → refundUsage order rs = refundUsage order' rs.
Proof.
  intros Hperm. revert rs. induction Hperm as [|e l l' _ IH|e e' l|l l' l'' _ IH _ IH']; intros rs.
  - done.
  - cbn. apply IH.
  - cbn. f_equal. apply updateFirst_comm; try apply named_stable.
    intros u. apply sub_sub_comm.
  - by rewrite IH.
Qed.

(** ** Instance life cycle *)

Lemma sameButNetwork_refl t : sameButNetwork t t.
Proof. by repeat split. Qed.

Ltac frame_trivial :=
  cbn; repeat split; try done;
  intros ? ? ?; eexists; split; [eassumption|apply sameButNetwork_refl].

Lemma ReleaseTenantIP_frame W tenantID ip ds :
  let ds' := final (ReleaseTenantIP W tenantID ip ds) in
  instances ds' = instances ds ∧ nodes ds' = nodes ds ∧
  instanceLastStat ds' = instanceLastStat ds ∧
  ∀ id t, tenants ds !! id = Some t →
          ∃ t', tenants ds' !! id = Some t' ∧ sameButNetwork t t'.
Proof.
  unfold ReleaseTenantIP.
  destruct (net_ParseIP W ip) as [ipAddr|]; [|frame_trivial].
  destruct (To4 ipAddr) as [[[[b0 b1] b2] b3]|]; [|frame_trivial].
  exec. destruct (tenants ds !! tenantID) as [t0|] eqn:Ht0; [|frame_trivial].
  destruct (network t0 !! _) as [hosts|]; cbn; [|frame_trivial].
  repeat split; try done. intros id t Ht.
  destruct (decide (id = tenantID)) as [->|Hne].
  - rewrite lookup_insert_eq. eexists. split; [done|].
    rewrite Ht0 in Ht. by injection Ht as <-.
  - rewrite lookup_insert_ne by done. eexists. split; [done|apply sameButNetwork_refl].
Qed.

Arguments ReleaseTenantIP : simpl never.

Lemma deleteInstance_removes W instanceID i t ds :
  instances ds !! instanceID = Some i →
  tenants ds !! Instance_TenantID i = Some t →
  let ds' := final (deleteInstance W instanceID ds) in
  instances ds' !! instanceID = None ∧
  instanceLastStat ds' !! instanceID = None ∧
  (∃ t', tenants ds' !! Instance_TenantID i = Some t' ∧
         Resources (Tenant t') =
           updateFirst instanceCount (λ u, GoInt.sub u 1)
             (refundUsage (map_to_list (Instance_Usage i)) (Resources (Tenant t))) ∧
         tenant_instances t' !! instanceID = None) ∧
  (Instance_NodeID i ≠ "" →
   ∀ n, nodes ds' !! Instance_NodeID i = Some n → node_instances n !! instanceID = None).
Proof.
  intros Hi Ht. unfold deleteInstance. exec. rewrite Hi. cbn. rewrite Ht. cbn.
  set (t1 := set_Tenant _ _).
  assert (Ht1 : Resources (Tenant t1) =
                updateFirst instanceCount (λ u, GoInt.sub u 1)
                  (refundUsage (map_to_list (Instance_Usage i)) (Resources (Tenant t))) ∧
                tenant_instances t1 !! instanceID = None).
  { split; [done|]. cbn. apply lookup_delete_eq. }
  clearbody t1.
  case_bool_decide as Hnode; cbn;
    [destruct (nodes ds !! Instance_NodeID i) as [n|] eqn:Hn; cbn|].
  - match goal with |- context [ReleaseTenantIP W ?a ?b ?d] =>
      destruct (ReleaseTenantIP_frame W a b d) as (Hinst & Hnodes & Hstat & Hten) end.
    rewrite Hinst, Hnodes, Hstat. cbn.
    rewrite !lookup_delete_eq. repeat split; try done.
    + destruct (Hten (Instance_TenantID i) t1) as (t' & Ht' & Hsame & _ & Hsame' & _);
        [apply lookup_insert_eq|].
      exists t'. split; [done|]. by rewrite Hsame, Hsame'.
    + intros _ n'. rewrite lookup_insert_eq. intros [= <-]. cbn. apply lookup_delete_eq.
  - rewrite !lookup_delete_eq. repeat split; try done.
    + exists t1. split; [apply lookup_insert_eq|done].
    + intros _ n'. by rewrite Hn.
  - match goal with |- context [ReleaseTenantIP W ?a ?b ?d] =>
      destruct (ReleaseTenantIP_frame W a b d) as (Hinst & Hnodes & Hstat & Hten) end.
    rewrite Hinst, Hstat. cbn.
    rewrite !lookup_delete_eq. repeat split; try done.
    destruct (Hten (Instance_TenantID i) t1) as (t' & Ht' & Hsame & _ & Hsame' & _);
      [apply lookup_insert_eq|].
    exists t'. split; [done|]. by rewrite Hsame, Hsame'.
Qed.

Arguments deleteInstance : simpl never.

Lemma DeleteInstance_final W instanceID ds :
  let ds1 := final (deleteInstance W instanceID ds) in
  let ds2 := final (DeleteInstance W instanceID ds) in
  instances ds2 = instances ds1 ∧ tenants ds2 = tenants ds1 ∧
  nodes ds2 = nodes ds1 ∧ instanceLastStat ds2 = instanceLastStat ds1.
Proof.
  unfold DeleteInstance. exec.
  by destruct (deleteInstance W instanceID ds) as [[e|] ds'|p ds'|ds'].
Qed.

(** Whatever way [DeleteInstance] ends (it returns nil, returns the error
    of [ReleaseTenantIP], or stops in a panic at the node or host-table
    lookup), the state [AddInstance] followed by [DeleteInstance] leaves has
    the tenant's resource list, instance counter included, as it was, and
    the instance in neither the global map, nor the tenant's map, nor its
    node's map. *)
Lemma AddInstance_DeleteInstance_final (W : World) (instance : types_Instance)
      (t : tenant) (ds : Datastore) :
  tenants ds !! Instance_TenantID instance = Some t →
  Forall (λ r, GoInt.valid (Usage r)) (Resources (Tenant t)) →
  let ds' := final (DeleteInstance W (Instance_ID instance) (final (AddInstance W instance ds))) in
  (∃ t', tenants ds' !! Instance_TenantID instance = Some t' ∧
         Resources (Tenant t') = Resources (Tenant t) ∧
         tenant_instances t' !! Instance_ID instance = None) ∧
  instances ds' !! Instance_ID instance = None ∧
  (Instance_NodeID instance ≠ "" →
   ∀ n, nodes ds' !! Instance_NodeID instance = Some n →
        node_instances n !! Instance_ID instance = None).
Proof.
  intros Ht Hvalid ds'. subst ds'.
  match goal with |- context [DeleteInstance W ?a ?d] =>
    destruct (DeleteInstance_final W a d) as (-> & -> & -> & _) end.
  unfold AddInstance. exec. rewrite Ht. cbn.
  match goal with |- context [deleteInstance W ?a ?d] =>
    pose proof (λ t0, deleteInstance_removes W a instance t0 d) as Hdel
  end.
  edestruct Hdel as (Hinst & _ & (t' & Ht' & Hres & Hti) & Hnode);
    [apply lookup_insert_eq|apply lookup_insert_eq|].
  cbn in Hres. rewrite counters_restored in Hres by done.
  repeat split; try done. by exists t'.
Qed.

(** C5.  In a datastore that holds tenant t1 and no node, [AddInstance] of
    an instance of t1 that names node n1 returns nil and records the
    instance for the tenant; the [DeleteInstance] that follows does not
    return: it stops in a nil-pointer panic at the node lookup of line 1027,
    before the store's removeInstance and [ReleaseTenantIP] are reached, so
    the effect history is the one [AddInstance] left. *)
Theorem DeleteInstance_panics_on_unknown_node :
  AddInstance quietWorld strayInstance meteredDatastore = Returns None strayAdded ∧
  instances strayAdded !! "i1" = Some strayInstance ∧
  (∃ t, tenants strayAdded !! "t1" = Some t ∧
        tenant_instances t !! "i1" = Some strayInstance) ∧
  nodes strayAdded !! "n1" = None ∧
  ∃ ds', DeleteInstance quietWorld "i1" strayAdded = Panics NilPointerDereference ds' ∧
         effects ds' = effects strayAdded.
Proof.
  split; [reflexivity|]. split; [reflexivity|].
  split; [eexists; split; reflexivity|]. split; [reflexivity|].
  eexists. split; reflexivity.
Qed.

(** ** Tenant usage history *)

Arguments now : simpl never.

Lemma updateTenantUsageNeeded_true delta :
  ¬ (VCPU delta = 0 ∧ Memory delta = 0 ∧ Disk delta = 0) → updateTenantUsageNeeded delta = true.
Proof.
  intros H. unfold updateTenantUsageNeeded.
  destruct (Z.eqb_spec (VCPU delta) 0), (Z.eqb_spec (Memory delta) 0),
    (Z.eqb_spec (Disk delta) 0); cbn; try done. by destruct H.
Qed.

Lemma add_zero_add x y : GoInt.add (GoInt.add 0 x) y = GoInt.wrap (x + y).
Proof. unfold GoInt.add. rewrite wrap_wrap_add. f_equal. Qed.

(** C6.  On an empty history, the first update with a nonzero delta makes
    one point stamped with the clock; a second one read less than five
    minutes after that stamp overwrites the point with the sum of both
    deltas and keeps the stamp; a second one read more than five minutes
    after it appends a second point; an all-zero delta changes nothing. *)
Theorem updateTenantUsage_coalescing (W : World) (tenantID : string)
        (d1 d2 : payloads_CiaoUsage) (ds : Datastore) :
  history tenantID ds = [] →
  ¬ (VCPU d1 = 0 ∧ Memory d1 = 0 ∧ Disk d1 = 0) →
  ¬ (VCPU d2 = 0 ∧ Memory d2 = 0 ∧ Disk d2 = 0) →
  let t1 := time_Now W (clock ds) in
  let t2 := time_Now W (S (clock ds)) in
  let t3 := time_Now W (S (S (clock ds))) in
  let ds1 := final (updateTenantUsage W d1 tenantID ds) in
  let ds2 := final (updateTenantUsage W d2 tenantID ds1) in
  let total stamp :=
    {| VCPU := GoInt.wrap (VCPU d1 + VCPU d2);
       Memory := GoInt.wrap (Memory d1 + Memory d2);
       Disk := GoInt.wrap (Disk d1 + Disk d2);
       Timestamp := stamp |} in
  (t2 - t1 < tenantUsagePeriod → history tenantID ds2 = [total t1]) ∧
  (tenantUsagePeriod < t2 - t1 →
   history tenantID ds2 = [sumUsage zeroUsage d1 t1; total t3]) ∧
  (∀ z ds0, VCPU z = 0 → Memory z = 0 → Disk z = 0 →
            updateTenantUsage W z tenantID ds0 = Returns tt ds0).
Proof.
  intros Hempty Hd1 Hd2 t1 t2 t3 ds1 ds2 total.
  assert (Hds1 : ds1 = set_tenantUsage (<[tenantID := [sumUsage zeroUsage d1 t1]]> (tenantUsage ds))
                         (set_clock (S (clock ds)) ds)).
  { subst ds1. unfold updateTenantUsage. rewrite updateTenantUsageNeeded_true by done.
    exec. fold (history tenantID ds). rewrite Hempty. done. }
  assert (Hstep : updateTenantUsage W d2 tenantID ds1 =
            if t2 - t1 <? tenantUsagePeriod
            then Returns tt (set_tenantUsage (<[tenantID := [total t1]]> (tenantUsage ds1))
                               (set_clock (S (S (clock ds))) ds1))
            else Returns tt (set_tenantUsage
                               (<[tenantID := [sumUsage zeroUsage d1 t1; total t3]]> (tenantUsage ds1))
                               (set_clock (S (S (S (clock ds)))) ds1))).
  { unfold updateTenantUsage. rewrite updateTenantUsageNeeded_true by done.
    exec. rewrite Hds1. cbn. rewrite lookup_insert_eq. cbn. unfold now. cbn.
    fold t1 t2 t3. unfold sumUsage at 1 2 3 4. cbn. rewrite !add_zero_add.
    destruct (t2 - t1 <? tenantUsagePeriod); done. }
  split; [|split].
  - intros Hlt. subst ds2. rewrite Hstep, (proj2 (Z.ltb_lt _ _)) by done.
    unfold history. cbn. by rewrite lookup_insert_eq.
  - intros Hgt. subst ds2. rewrite Hstep, (proj2 (Z.ltb_ge _ _)) by lia.
    unfold history. cbn. by rewrite lookup_insert_eq.
  - intros z ds0 Hv Hm Hd. unfold updateTenantUsage, updateTenantUsageNeeded.
    by rewrite Hv, Hm, Hd.
Qed.

Lemma updateTenantUsage_coalescing_witness :
  history "t1" emptyDatastore = [] ∧
  ¬ (VCPU someDelta = 0 ∧ Memory someDelta = 0 ∧ Disk someDelta = 0) ∧
  history "t1" (final (updateTenantUsage quietWorld someDelta "t1"
                         (final (updateTenantUsage quietWorld someDelta "t1" emptyDatastore))))
  = [ {| VCPU := 4; Memory := 1024; Disk := 0; Timestamp := 0 |} ].
Proof.
  assert (H1 : history "t1" emptyDatastore = []) by reflexivity.
  assert (H2 : ¬ (VCPU someDelta = 0 ∧ Memory someDelta = 0 ∧ Disk someDelta = 0))
    by (intros [H _]; discriminate H).
  split; [exact H1|]. split; [exact H2|].
  apply (updateTenantUsage_coalescing quietWorld "t1" someDelta someDelta emptyDatastore H1 H2 H2).
  reflexivity.
Defined.

Lemma countBefore_length bound l :
  countBefore bound l = length (filter (λ u, Timestamp u < bound) l).
Proof.
  unfold countBefore.
  assert (H : ∀ n, fold_left (λ n u, if Timestamp u <? bound then S n else n) l n
                   = (n + length (filter (λ u, (Timestamp u < bound)%Z) l))%nat).
  { induction l as [|u l IH]; intros n; [cbn; lia|].
    cbn [fold_left]. rewrite IH, filter_cons. destruct (Z.ltb_spec (Timestamp u) bound).
    - rewrite decide_True by done. cbn [length]. lia.
    - rewrite decide_False by lia. done. }
  by rewrite H.
Qed.

Lemma ascending_strongly l :
  ascending l → StronglySorted (λ u v, Timestamp u ≤ Timestamp v) l.
Proof.
  apply Sorted_StronglySorted. intros u v w Huv Hvw. lia.
Qed.

Lemma filter_none {A} (P : A → Prop) `{∀ x, Decision (P x)} (l : list A) :
  Forall (λ x, ¬ P x) l → filter P l = [].
Proof.
  induction 1 as [|x l Hx Hl IH]; [done|].
  by rewrite filter_cons, decide_False.
Qed.

Lemma window_slice start end_ l :
  StronglySorted (λ u v, Timestamp u ≤ Timestamp v) l → start ≤ end_ →
  (countBefore start l ≤ countBefore end_ l)%nat ∧
  take (countBefore end_ l - countBefore start l) (drop (countBefore start l) l)
  = filter (within start end_) l.
Proof.
  intros Hl Hse. rewrite !countBefore_length.
  induction Hl as [|u l Hl IH Hu]; [done|].
  destruct IH as [IHle IH].
  rewrite !filter_cons.
  destruct (decide (Timestamp u < start)) as [Hus|Hus].
  - rewrite (decide_True (P := Timestamp u < end_)) by lia.
    rewrite (decide_False (P := within start end_ u)) by (unfold within; lia).
    cbn. split; [lia|done].
  - assert (Hnone : filter (λ v, Timestamp v < start) l = []).
    { apply filter_none. eapply Forall_impl; [exact Hu|]. cbn. intros v Hv. lia. }
    rewrite Hnone in *. cbn [length] in *.
    destruct (decide (Timestamp u < end_)) as [Hue|Hue].
    + rewrite (decide_True (P := within start end_ u)) by (unfold within; lia).
      cbn. split; [lia|]. f_equal. rewrite <- IH. cbn. by rewrite Nat.sub_0_r.
    + rewrite (decide_False (P := within start end_ u)) by (unfold within; lia).
      rewrite (filter_none (λ v, Timestamp v < end_)).
      * cbn. split; [lia|]. symmetry. apply filter_none.
        eapply Forall_impl; [exact Hu|]. cbn. unfold within. intros v Hv. lia.
      * eapply Forall_impl; [exact Hu|]. cbn. intros v Hv. lia.
Qed.

(** C7 (amended).  For a non-empty ascending history and [start ≤ end],
    [GetTenantUsage] returns, in stored order, exactly the samples with
    [start ≤ t < end]: the lower bound is inclusive, the upper bound is not. *)
Theorem GetTenantUsage_window (tenantID : string) (start end_ : Time) (ds : Datastore) :
  history tenantID ds ≠ [] → ascending (history tenantID ds) → start ≤ end_ →
  GetTenantUsage tenantID start end_ ds =
    Returns (Ok (filter (within start end_) (history tenantID ds))) ds.
Proof.
  intros Hne Hasc Hse. apply ascending_strongly in Hasc.
  unfold GetTenantUsage. exec. fold (history tenantID ds).
  destruct (history tenantID ds) as [|u0 l] eqn:Hh; [done|]. clear Hne.
  cbn [head]. destruct (last (u0 :: l)) as [un|] eqn:Hlast.
  2: { by rewrite last_cons in Hlast; destruct (last l). }
  assert (Hun : un ∈ u0 :: l) by (apply last_Some in Hlast as [l' ->]; set_solver).
  assert (Hmax : ∀ v, v ∈ u0 :: l → Timestamp v ≤ Timestamp un).
  { apply last_Some in Hlast as [l' Hl']. rewrite Hl' in *.
    intros v Hv.
    apply elem_of_app in Hv as [Hv|Hv%list_elem_of_singleton]; [|subst; lia].
    clear -Hasc Hv. induction l' as [|w l' IH]; [set_solver|].
    cbn in Hasc. apply StronglySorted_inv in Hasc as [Hs Hall].
    apply elem_of_cons in Hv as [->|Hv]; [|by apply IH].
    rewrite Forall_forall in Hall. apply Hall. set_solver. }
  assert (Hmin : ∀ v, v ∈ u0 :: l → Timestamp u0 ≤ Timestamp v).
  { intros v Hv. apply StronglySorted_inv in Hasc as [_ Hall].
    apply elem_of_cons in Hv as [->|Hv]; [lia|].
    rewrite Forall_forall in Hall. by apply Hall. }
  destruct (Z.ltb_spec end_ (Timestamp u0)) as [He|He]; cbn [orb].
  { do 2 f_equal. symmetry. apply filter_none. apply Forall_forall.
    intros v Hv. specialize (Hmin v Hv). unfold within. lia. }
  destruct (Z.ltb_spec (Timestamp un) start) as [Hs|Hs]; cbn [orb].
  { do 2 f_equal. symmetry. apply filter_none. apply Forall_forall.
    intros v Hv. specialize (Hmax v Hv). unfold within. lia. }
  destruct (window_slice start end_ (u0 :: l) Hasc Hse) as [Hle Hslice].
  rewrite (proj2 (Nat.leb_le _ _)) by done. by rewrite Hslice.
Qed.

Lemma GetTenantUsage_window_witness :
  history "t1" twoSamples ≠ [] ∧ ascending (history "t1" twoSamples) ∧ 5 ≤ 10 ∧
  GetTenantUsage "t1" 5 10 twoSamples =
    Returns (Ok (filter (within 5 10) (history "t1" twoSamples))) twoSamples.
Proof.
  assert (H1 : history "t1" twoSamples ≠ []) by discriminate.
  assert (H2 : ascending (history "t1" twoSamples)).
  { repeat constructor. cbn. lia. }
  assert (H3 : 5 ≤ 10) by lia.
  split; [exact H1|]. split; [exact H2|]. split; [exact H3|].
  exact (GetTenantUsage_window "t1" 5 10 twoSamples H1 H2 H3).
Defined.

(** C7 as stated fails: a sample stamped exactly [end] is left out. *)
Lemma GetTenantUsage_excludes_end :
  GetTenantUsage "t1" 5 10 twoSamples = Returns (Ok [sampleAt 7]) twoSamples ∧
  filter (λ u, 5 ≤ Timestamp u ≤ 10) (history "t1" twoSamples) = [sampleAt 7; sampleAt 10].
Proof. split; reflexivity. Qed.

(** ** Entry conditions *)

Lemma claimHost_no_nil_dereference tenantID t k b0 b1 ds ds' :
  claimHost tenantID t k b0 b1 ds ≠ Panics NilPointerDereference ds'.
Proof.
  unfold claimHost.
  destruct (probeHosts 254 (network t !! k) 2) as [[rest|]|]; exec; [|done|done].
  by destruct (network t !! k).
Qed.

Lemma claimHost_terminates tenantID t k b0 b1 ds ds' :
  claimHost tenantID t k b0 b1 ds ≠ Diverges ds'.
Proof.
  unfold claimHost.
  pose proof (probeHosts_total (network t !! k) 254 2 ltac:(lia) ltac:(lia)) as Htot.
  destruct (probeHosts 254 (network t !! k) 2) as [[rest|]|]; exec; [|done|done].
  by destruct (network t !! k).
Qed.

Arguments claimHost : simpl never.

(** Both loops of [AllocateTenantIP] end: the fuel of the model is never
    what stops them. *)
Lemma AllocateTenantIP_terminates tenantID ds ds' :
  AllocateTenantIP tenantID ds ≠ Diverges ds'.
Proof.
  unfold AllocateTenantIP. exec.
  destruct (tenants ds !! tenantID) as [t|]; [|done]. cbn.
  pose proof (probeSubnets_total (allSubnets ds) 4096 16 0 ltac:(lia) ltac:(lia) ltac:(lia)) as Htot.
  destruct (_ =? 0).
  - destruct (probeSubnets 4096 (allSubnets ds) 16 0) as [[[b0 b1]|]|]; [|done|done].
    apply claimHost_terminates.
  - apply claimHost_terminates.
Qed.

(** C9.  [AllocateTenantIP] dereferences [ds.tenants[tenantID]] on entry:
    for a tenant that is not in the map it panics (it does not return
    [ErrNoTenant]); for a tenant that is in the map that panic cannot occur. *)
Theorem AllocateTenantIP_requires_tenant (tenantID : string) (ds : Datastore) :
  (tenants ds !! tenantID = None →
   AllocateTenantIP tenantID ds = Panics NilPointerDereference ds) ∧
  (is_Some (tenants ds !! tenantID) →
   ∀ ds', AllocateTenantIP tenantID ds ≠ Panics NilPointerDereference ds').
Proof.
  split.
  - intros Hnone. unfold AllocateTenantIP. exec. by rewrite Hnone.
  - intros [t Ht] ds'. unfold AllocateTenantIP. exec. rewrite Ht. cbn.
    destruct (_ =? 0).
    + destruct (probeSubnets 4096 (allSubnets ds) 16 0) as [[[b0 b1]|]|]; [|done|done].
      apply claimHost_no_nil_dereference.
    + apply claimHost_no_nil_dereference.
Qed.

Lemma AllocateTenantIP_requires_tenant_witness :
  (tenants emptyDatastore !! "ghost" = None ∧
   AllocateTenantIP "ghost" emptyDatastore = Panics NilPointerDereference emptyDatastore) ∧
  (is_Some (tenants (oneTenant "t1") !! "t1") ∧
   ∀ ds', AllocateTenantIP "t1" (oneTenant "t1") ≠ Panics NilPointerDereference ds').
Proof.
  assert (H1 : tenants emptyDatastore !! "ghost" = None) by reflexivity.
  assert (H2 : is_Some (tenants (oneTenant "t1") !! "t1")) by (eexists; reflexivity).
  split; (split; [assumption|]).
  - exact (proj1 (AllocateTenantIP_requires_tenant "ghost" emptyDatastore) H1).
  - exact (proj2 (AllocateTenantIP_requires_tenant "t1" (oneTenant "t1")) H2).
Defined.

(** C10.  [AddInstance] returns nil for every instance.  The instance is
    put in the global map and gets a last-stats record; when its tenant is
    not in the tenant map, the tenant map (every tenant's counters and
    instance map) stays as it was. *)
Theorem AddInstance_returns_nil (W : World) (instance : types_Instance) (ds : Datastore) :
  ∃ ds', AddInstance W instance ds = Returns None ds' ∧
         instances ds' !! Instance_ID instance = Some instance ∧
         instanceLastStat ds' !! Instance_ID instance =
           Some {| Stats_ID := Instance_ID instance;
                   Stats_TenantID := Instance_TenantID instance;
                   Stats_NodeID := Instance_NodeID instance;
                   Stats_Timestamp := time_Now W (clock ds);
                   Stats_Status := Instance_State instance;
                   Stats_VCPUUsage := 0; Stats_MemUsage := 0; Stats_DiskUsage := 0 |} ∧
         (tenants ds !! Instance_TenantID instance = None → tenants ds' = tenants ds).
Proof.
  unfold AddInstance, now. exec.
  destruct (tenants ds !! Instance_TenantID instance) as [t|] eqn:Ht; cbn;
    eexists; (split; [done|]); cbn; rewrite !lookup_insert_eq; done.
Qed.

Lemma AddInstance_returns_nil_witness :
  tenants meteredDatastore !! "nobody" = None ∧
  ∃ ds', AddInstance quietWorld orphanInstance meteredDatastore = Returns None ds' ∧
         instances ds' !! "i1" = Some orphanInstance ∧
         tenants ds' = tenants meteredDatastore.
Proof.
  assert (H : tenants meteredDatastore !! "nobody" = None) by reflexivity.
  split; [exact H|].
  destruct (AddInstance_returns_nil quietWorld orphanInstance meteredDatastore)
    as (ds' & Hret & Hinst & _ & Hten).
  exists ds'. split; [exact Hret|]. split; [exact Hinst|]. exact (Hten H).
Defined.

(** ** Releasing addresses *)

Lemma set_network_same t : set_network (network t) t = t.
Proof. by destruct t. Qed.

(** C3 (amended).  For a tenant in the datastore and a well-formed IPv4
    address that the tenant does not hold, in a subnet for which the tenant
    has a host table: [ReleaseTenantIP] sets the entry of that host to false,
    touches nothing else in memory and returns what the persistent store
    answers; no address becomes claimed or unclaimed; when the entry was
    false already (the address had been released before) the tenant map is
    unchanged; and a second release of the same address changes nothing
    more. *)
Theorem ReleaseTenantIP_unclaimed (W : World) (tenantID ip : string) (a b c d : Z)
        (t : tenant) (hosts : gmap Z bool) (ds : Datastore) :
  net_ParseIP W ip = Some (IPv4 a b c d) →
  tenants ds !! tenantID = Some t →
  network t !! binary_BigEndian_Uint16 b c = Some hosts →
  claimed hosts d = false →
  let subnetInt := binary_BigEndian_Uint16 b c in
  let call := releaseTenantIP tenantID subnetInt d in
  let t' := set_network (<[subnetInt := <[d := false]> hosts]> (network t)) t in
  let ds1 := set_effects (effects ds ++ [Call call])
               (set_tenants (<[tenantID := t']> (tenants ds)) ds) in
  ReleaseTenantIP W tenantID ip ds = Returns (db W (effects ds) call) ds1 ∧
  (∀ k x, hosts_claimed (network t' !! k) x = hosts_claimed (network t !! k) x) ∧
  (hosts !! d = Some false → tenants ds1 = tenants ds) ∧
  tenants (final (ReleaseTenantIP W tenantID ip ds1)) = tenants ds1 ∧
  allSubnets (final (ReleaseTenantIP W tenantID ip ds1)) = allSubnets ds.
Proof.
  intros Hip Ht Hnet Hfree subnetInt call t' ds1.
  assert (Hrelease : ∀ t0 h0 ds0,
            tenants ds0 !! tenantID = Some t0 → network t0 !! subnetInt = Some h0 →
            ReleaseTenantIP W tenantID ip ds0 =
              Returns (db W (effects ds0) call)
                (set_effects (effects ds0 ++ [Call call])
                   (set_tenants
                      (<[tenantID := set_network (<[subnetInt := <[d := false]> h0]> (network t0)) t0]>
                         (tenants ds0)) ds0))).
  { intros t0 h0 ds0 Ht0 Hh0. unfold ReleaseTenantIP. rewrite Hip. cbn. exec.
    fold subnetInt. rewrite Ht0, Hh0. done. }
  split; [by apply Hrelease|]. split; [|split].
  - intros k x. subst t'. cbn. rewrite lookup_insert. case_decide as Hk; [|done].
    subst k. fold subnetInt in Hnet. rewrite Hnet. cbn. unfold claimed in *. rewrite lookup_insert.
    case_decide as Hx; [|done]. by subst x.
  - intros Hentry. subst ds1 t'. cbn.
    rewrite (insert_id hosts d false) by done.
    rewrite (insert_id (network t)) by done.
    rewrite set_network_same. by apply insert_id.
  - rewrite (Hrelease t' (<[d := false]> hosts) ds1);
      [|apply lookup_insert_eq|apply lookup_insert_eq].
    cbn. split; [|done]. rewrite insert_insert_eq. f_equal.
    subst t'. unfold set_network. cbn. by rewrite !insert_insert_eq.
Qed.

Lemma ReleaseTenantIP_unclaimed_witness :
  net_ParseIP quietWorld "172.16.0.3" = Some (IPv4 172 16 0 3) ∧
  tenants oneClaimed !! "t1" = Some claimedTenant ∧
  network claimedTenant !! binary_BigEndian_Uint16 16 0 = Some {[ 2 := true ]} ∧
  claimed {[ 2 := true ]} 3 = false ∧
  returned (ReleaseTenantIP quietWorld "t1" "172.16.0.3" oneClaimed) = Some None.
Proof.
  assert (H1 : net_ParseIP quietWorld "172.16.0.3" = Some (IPv4 172 16 0 3)) by reflexivity.
  assert (H2 : tenants oneClaimed !! "t1" = Some claimedTenant) by reflexivity.
  assert (H3 : network claimedTenant !! binary_BigEndian_Uint16 16 0 = Some {[ 2 := true ]})
    by reflexivity.
  assert (H4 : claimed {[ 2 := true ]} 3 = false) by reflexivity.
  split; [exact H1|]. split; [exact H2|]. split; [exact H3|]. split; [exact H4|].
  destruct (ReleaseTenantIP_unclaimed quietWorld "t1" "172.16.0.3" 172 16 0 3 claimedTenant
              {[ 2 := true ]} oneClaimed H1 H2 H3 H4) as [-> _].
  reflexivity.
Defined.

(** C3 as stated fails.  The tenant holds 172.16.0.2 only.  Releasing
    172.16.0.3, never claimed, adds an entry to the host table; releasing
    172.17.0.2, in a subnet the tenant never had, writes to a nil map; and
    the error of the persistent store is passed on to the caller. *)
Lemma ReleaseTenantIP_not_a_noop :
  (hostEntry "t1" 4096 3 oneClaimed = None ∧
   hostEntry "t1" 4096 3 (final (ReleaseTenantIP quietWorld "t1" "172.16.0.3" oneClaimed))
     = Some false ∧
   tenants (final (ReleaseTenantIP quietWorld "t1" "172.16.0.3" oneClaimed))
     ≠ tenants oneClaimed) ∧
  ReleaseTenantIP quietWorld "t1" "172.17.0.2" oneClaimed = Panics NilMapAssignment oneClaimed ∧
  returned (ReleaseTenantIP failingStore "t1" "172.16.0.3" oneClaimed) = Some (Some (db_error 1)).
Proof.
  split; [|split; reflexivity].
  split; [reflexivity|]. split; [reflexivity|].
  intros Heq. apply (f_equal (λ ts, t ← ts !! "t1"; h ← network t !! 4096; h !! 3)) in Heq.
  vm_compute in Heq. discriminate Heq.
Qed.

(** ** Start failures *)

(** What holds of [StartFailure] on the code: for an instance that is no
    CNCI, a reason outside the first arm of the switch leaves every map as
    it is and logs one error event for the instance's tenant. *)
Lemma StartFailure_keeps W instanceID reason i ds :
  cnciTenant instanceID (tenants ds) = None →
  instances ds !! instanceID = Some i →
  neverBecameReal reason = false →
  StartFailure W instanceID reason ds =
    Returns None
      (set_effects
         (effects ds ++
          [Call (logEvent (Instance_TenantID i) "error"
                   ("Start Failure " +:+ instanceID +:+ ": " +:+ reason_String W reason))])
         ds).
Proof.
  intros Hcnci Hi Hreason. unfold StartFailure, GetInstance. exec.
  rewrite Hcnci. cbn. rewrite Hi. cbn. rewrite Hreason. done.
Qed.

(** When [deleteInstance] comes back, the instance is gone from every map
    and the same event is logged. *)
Lemma StartFailure_deletes W instanceID reason i t ds err ds1 :
  cnciTenant instanceID (tenants ds) = None →
  instances ds !! instanceID = Some i →
  tenants ds !! Instance_TenantID i = Some t →
  neverBecameReal reason = true →
  deleteInstance W instanceID ds = Returns err ds1 →
  ∃ ds', StartFailure W instanceID reason ds = Returns None ds' ∧
         effects ds' =
           effects ds1 ++
           [Call (logEvent (Instance_TenantID i) "error"
                    ("Start Failure " +:+ instanceID +:+ ": " +:+ reason_String W reason))] ∧
         instances ds' !! instanceID = None ∧
         instanceLastStat ds' !! instanceID = None ∧
         (∃ t', tenants ds' !! Instance_TenantID i = Some t' ∧
                tenant_instances t' !! instanceID = None) ∧
         (Instance_NodeID i ≠ "" →
          ∀ n, nodes ds' !! Instance_NodeID i = Some n → node_instances n !! instanceID = None).
Proof.
  intros Hcnci Hi Ht Hreason Hdel.
  destruct (deleteInstance_removes W instanceID i t ds Hi Ht)
    as (Hinst & Hstat & (t' & Ht' & _ & Hti) & Hnode).
  rewrite Hdel in *. cbn in *.
  unfold StartFailure, GetInstance. exec.
  rewrite Hcnci. cbn. rewrite Hi. cbn. rewrite Hreason, Hdel. cbn.
  eexists. split; [done|]. cbn. repeat split; try done. by exists t'.
Qed.

(** [deleteInstance] does come back when the tenant is in the map, the
    instance has no node or a node that is in the map, and its address does
    not parse or lies in a subnet for which the tenant has a host table. *)
Lemma deleteInstance_returns W instanceID i t ds :
  instances ds !! instanceID = Some i →
  tenants ds !! Instance_TenantID i = Some t →
  (Instance_NodeID i = "" ∨ is_Some (nodes ds !! Instance_NodeID i)) →
  (match net_ParseIP W (Instance_IPAddress i) ≫= To4 with
   | Some (_, b1, b2, _) => is_Some (network t !! binary_BigEndian_Uint16 b1 b2)
   | None => True
   end) →
  ∃ err ds1, deleteInstance W instanceID ds = Returns err ds1.
Proof.
  intros Hi Ht Hnode Hip. unfold deleteInstance. exec. rewrite Hi. cbn. rewrite Ht. cbn.
  assert (Hrel : ∀ ds0 t0, tenants ds0 !! Instance_TenantID i = Some t0 →
                           network t0 = network t →
                           ∃ err ds1, ReleaseTenantIP W (Instance_TenantID i)
                                        (Instance_IPAddress i) ds0 = Returns err ds1).
  { intros ds0 t0 Ht0 Hnet. unfold ReleaseTenantIP.
    destruct (net_ParseIP W (Instance_IPAddress i)) as [ipAddr|]; [|by eexists _, _].
    cbn in Hip. destruct (To4 ipAddr) as [[[[b0 b1] b2] b3]|]; [|by eexists _, _].
    exec. rewrite Ht0, Hnet. destruct Hip as [h ->]. by eexists _, _. }
  case_bool_decide as Hn; cbn.
  - destruct Hnode as [Hnode|[n Hnode]]; [done|]. rewrite Hnode. cbn.
    eapply Hrel; [cbn; apply lookup_insert_eq|done].
  - eapply Hrel; [cbn; apply lookup_insert_eq|done].
Qed.

(** ** Reuse of a subnet with room in its host table *)

Lemma scan_nonzero network l acc :
  (∀ k, k ∈ l → len (network !! k) < 253 → GoInt.uint16 k ≠ 0) →
  (acc ≠ 0 ∨ ∃ k, k ∈ l ∧ len (network !! k) < 253) →
  fold_left (scanStep network) l acc ≠ 0.
Proof.
  revert acc. induction l as [|k l IH]; intros acc Hnz Hex.
  - destruct Hex as [Hacc|(k & Hk & _)]; [done|]. by apply elem_of_nil in Hk.
  - cbn. apply IH; [intros k' Hk'; apply Hnz; by right|].
    unfold scanStep. destruct (Z.ltb_spec (len (network !! k)) 253) as [Hlt|Hge].
    + left. apply Hnz; [by left|done].
    + destruct Hex as [Hacc|(k' & Hk' & Hlt')]; [by left|].
      apply elem_of_cons in Hk' as [->|Hk']; [lia|]. right. by exists k'.
Qed.

Lemma elem_of_insert_Int x y l : x ∈ insert_Int y l ↔ x = y ∨ x ∈ l.
Proof.
  induction l as [|z l IH]; cbn.
  - rewrite list_elem_of_singleton, elem_of_nil. tauto.
  - destruct (y <=? z); rewrite !elem_of_cons; [tauto|]. rewrite IH. tauto.
Qed.

Lemma elem_of_sort_Ints x l : x ∈ sort_Ints l ↔ x ∈ l.
Proof.
  unfold sort_Ints. induction l as [|y l IH]; [done|].
  cbn [foldr]. rewrite elem_of_insert_Int, IH, elem_of_cons. tauto.
Qed.

Lemma claimHost_frame tenantID t k b0 b1 ds :
  let ds' := final (claimHost tenantID t k b0 b1 ds) in
  allSubnets ds' = allSubnets ds ∧
  (∀ ds0, claimHost tenantID t k b0 b1 ds ≠ Diverges ds0) ∧
  ∃ t', tenants ds' !! tenantID = Some t' ∧ subnets t' = subnets t.
Proof.
  pose proof (claimHost_terminates tenantID t k b0 b1 ds) as Hterm.
  unfold claimHost in *.
  destruct (probeHosts 254 (network t !! k) 2) as [[rest|]|].
  - destruct (network t !! k) as [h|]; exec; (split; [done|]); (split; [done|]);
      eexists; (split; [apply lookup_insert_eq|done]).
  - exec. split; [done|]. split; [done|]. eexists. split; [apply lookup_insert_eq|done].
  - exfalso. by eapply Hterm.
Qed.

(** What holds of C4 on the code: a subnet of the tenant whose host table
    has fewer than 253 entries, released ones included, keeps
    [AllocateTenantIP] from claiming a new subnet index. *)
Lemma AllocateTenantIP_reuses_subnet tenantID t k ds :
  tenants ds !! tenantID = Some t →
  k ∈ subnets t → len (network t !! k) < 253 →
  (∀ k', k' ∈ subnets t → 0 < k' < 65536) →
  let ds' := final (AllocateTenantIP tenantID ds) in
  allSubnets ds' = allSubnets ds ∧
  ∃ t', tenants ds' !! tenantID = Some t' ∧ subnets t' = sort_Ints (subnets t).
Proof.
  intros Ht Hk Hlen Hrange. unfold AllocateTenantIP. exec. rewrite Ht. cbn.
  rewrite scanSubnets_fold.
  match goal with |- context [?x =? 0] => destruct (Z.eqb_spec x 0) as [Hz|Hz] end.
  - exfalso. revert Hz. apply scan_nonzero.
    + intros k' Hk' _. apply (proj1 (elem_of_sort_Ints k' (subnets t))) in Hk'.
      specialize (Hrange k' Hk').
      unfold GoInt.uint16. rewrite Z.mod_small; lia.
    + right. exists k. split; [by apply elem_of_sort_Ints|done].
  - match goal with |- context [claimHost ?a ?b ?c ?d ?e ?f] =>
      destruct (claimHost_frame a b c d e f) as (Hall & _ & t' & Ht' & Hsub) end.
    split; [done|]. by exists t'.
Qed.

(** ** Defects shown on concrete runs *)

(** C4 fails on the code.  After 253 allocations the tenant's only subnet
    is full; 172.16.0.2 is then released, so 252 hosts are claimed; the next
    allocation still opens subnet 172.16.1, because [len] counts the
    released entry. *)
Theorem AllocateTenantIP_ignores_released_host :
  hostEntry "t1" 4096 2 fullSubnet = Some true ∧
  hostEntry "t1" 4096 2 afterRelease = Some false ∧
  (subnets <$> tenants afterRelease !! "t1") = Some [4096] ∧
  returned (AllocateTenantIP "t1" afterRelease) = Some (Ok (IPv4 172 16 1 2)) ∧
  (subnets <$> tenants (final (AllocateTenantIP "t1" afterRelease)) !! "t1")
    = Some [4096; 4097] ∧
  allSubnets (final (AllocateTenantIP "t1" afterRelease)) !! 4097 = Some true.
Proof. vm_compute. repeat split. Qed.

(** C1 fails on the code.  Instance i2 reports volume v2, which attaches
    it; then instance i1 reports no volume, and the call for i1 removes the
    attachment of i2 and makes v2 Available. *)
Theorem updateStorageAttachments_touches_other_instance :
  (∃ ID, instanceVolumes attachedToI2 !! ("i2", "v2") = Some ID ∧
         attachments attachedToI2 !! ID =
           Some {| Attachment_ID := ID; Attachment_InstanceID := "i2";
                   Attachment_BlockID := "v2" |} ∧
         attachments afterI1 !! ID = None) ∧
  (BlockData_State <$> blockDevices attachedToI2 !! "v2") = Some InUse ∧
  instanceVolumes afterI1 !! ("i2", "v2") = None ∧
  (BlockData_State <$> blockDevices afterI1 !! "v2") = Some Available.
Proof. split; [exists "A"|]; vm_compute; repeat split. Qed.

(** C8 fails on the code.  An instance added for a tenant that is not in
    the tenant map is in the datastore and is no CNCI; [StartFailure] with
    reason full-cloud reaches [deleteInstance], which reads
    [tenant.instances] before its own nil test and panics: no event is
    logged. *)
Theorem StartFailure_panics_without_tenant :
  instances orphaned !! "i1" = Some orphanInstance ∧
  cnciTenant "i1" (tenants orphaned) = None ∧
  (∃ ds', StartFailure quietWorld "i1" FullCloud orphaned = Panics NilPointerDereference ds' ∧
          effects ds' = effects orphaned).
Proof. split; [|split; [|eexists; split]]; reflexivity. Qed.

(** ** Exhaustion of the subnet range *)

(** C2 (amended).  For a tenant without subnets in a datastore where no
    subnet is claimed, repeated calls of [AllocateTenantIP] with no release
    return 253 × 4096 = 1,036,288 addresses, call [n] giving host
    [2 + n mod 253] of subnet [n / 253] counted from 172.16.0; these
    addresses are pairwise different; every later call returns the error
    [Out of subnets]. *)
Theorem AllocateTenantIP_exhaustion (tenantID : string) (ds : Datastore) :
  freshAllocator tenantID ds →
  (∀ n, (n < 253 * 4096)%N →
        ∃ ds', AllocateTenantIP tenantID (allocateMany n tenantID ds) =
               Returns (Ok (nthAddress n)) ds') ∧
  (∀ n, (253 * 4096 ≤ n)%N →
        ∃ ds', AllocateTenantIP tenantID (allocateMany n tenantID ds) =
               Returns (Err (errors_New "Out of subnets")) ds') ∧
  (∀ m n, (m < n)%N → (n < 253 * 4096)%N → nthAddress m ≠ nthAddress n).
Proof.
  intros Hfresh. split; [|split].
  - intros n Hn. destruct (allocateMany_result tenantID ds n Hfresh) as [ds' Hds'].
    exists ds'. by rewrite decide_True in Hds'.
  - intros n Hn. destruct (allocateMany_result tenantID ds n Hfresh) as [ds' Hds'].
    exists ds'. by rewrite decide_False in Hds' by lia.
  - intros m n Hmn Hn Heq. apply nthAddress_inj in Heq; lia.
Qed.

Lemma AllocateTenantIP_exhaustion_witness :
  freshAllocator "t1" (oneTenant "t1") ∧
  (∀ n, (n < 253 * 4096)%N →
        ∃ ds', AllocateTenantIP "t1" (allocateMany n "t1" (oneTenant "t1")) =
               Returns (Ok (nthAddress n)) ds') ∧
  (∀ n, (253 * 4096 ≤ n)%N →
        ∃ ds', AllocateTenantIP "t1" (allocateMany n "t1" (oneTenant "t1")) =
               Returns (Err (errors_New "Out of subnets")) ds') ∧
  (∀ m n, (m < n)%N → (n < 253 * 4096)%N → nthAddress m ≠ nthAddress n).
Proof.
  assert (H : freshAllocator "t1" (oneTenant "t1")).
  { split; [|reflexivity]. exists (emptyTenant "t1"). repeat split; reflexivity. }
  split; [exact H|]. exact (AllocateTenantIP_exhaustion "t1" (oneTenant "t1") H).
Defined.

(** C2 as stated fails: the call after 253 × 30 = 7590 allocations returns
    an address, and so does the call after a million allocations. *)
Lemma AllocateTenantIP_succeeds_past_7590 :
  returned (AllocateTenantIP "t1" (allocateMany 7590 "t1" (oneTenant "t1")))
    = Some (Ok (IPv4 172 16 30 2)) ∧
  returned (AllocateTenantIP "t1" (allocateMany 1000000 "t1" (oneTenant "t1")))
    = Some (Ok (IPv4 172 31 112 146)).
Proof.
  split.
  - destruct (allocateMany_result "t1" (oneTenant "t1") 7590 (oneTenant_fresh "t1")) as [ds' ->].
    reflexivity.
  - destruct (allocateMany_result "t1" (oneTenant "t1") 1000000 (oneTenant_fresh "t1")) as [ds' ->].
    reflexivity.
Qed.
